(** * FINTEL AI: the anomaly-detection trainer [AI-Agent/ml_trainer.py]

    A shallow embedding of class [FintelMLTrainer]: the synthetic invoice
    generator, the training and evaluation path, pickle persistence and
    the inference entry point.

    Conventions of the embedding.
    - A Python [float] (and a numpy [float64]) is a rational [Q]; every
      arithmetic operation is the exact operation followed by the
      rounding [rnd] of the [Float64] interface.  Only two facts about
      [rnd] are ever assumed: it is monotone, and it leaves the integers
      of magnitude at most 2^53 alone.  NaN appears only as the mean of
      an empty array.
    - The [random] module is the interface [Random]: a generator state
      threaded through the code, with [random()] and [_randbelow(n)] as
      primitives; [uniform], [randint] and [choice] are written on top of
      them the way CPython's [random.py] writes them.
    - scikit-learn, [train_test_split] and [pickle] are interfaces
      ([Sklearn], [Pickle]); their calls may raise.
    - A method of the trainer is a function on a [world]: the fields of
      [self], the file system and the lines printed so far.  A raised
      exception keeps the mutations made before it. *)

From Stdlib Require Import ZArith QArith Qround Qabs Lqa List String Lia.
From stdpp Require Import gmap strings.
Import ListNotations.

Local Open Scope Z_scope.

(** ** Numbers *)

(** [rnd] rounds an exact result to the nearest representable float;
    [log1p] is numpy's. *)
Class Float64 := {
  rnd : Q -> Q;
  log1p : Q -> Q
}.

Class Float64Laws `{Float64} : Prop := {
  rnd_mono : forall x y : Q, (x <= y)%Q -> (rnd x <= rnd y)%Q;
  rnd_int : forall z : Z, Z.abs z <= 2 ^ 53 -> (rnd (inject_Z z) == inject_Z z)%Q
}.

(** [x < y] on floats, as a boolean. *)
Definition Qltb (x y : Q) : bool := negb (Qle_bool y x).

(** Python's [x % m] on floats: the result takes the sign of [m]. *)
Definition py_mod `{Float64} (x m : Q) : Q :=
  rnd (x - m * inject_Z (Qfloor (x / m)))%Q.

(** ** The feature synthesizer *)

Module Synth.

(** The generator state behind the module-level functions of [random]. *)
Class Random (G : Type) := {
  random : G -> Q * G;
  _randbelow : Z -> G -> Z * G
}.

Class RandomLaws (G : Type) `{Random G} : Prop := {
  random_range : forall g : G, (0 <= fst (random g))%Q /\ (fst (random g) < 1)%Q;
  randbelow_range : forall (n : Z) (g : G), 0 < n -> 0 <= fst (_randbelow n g) < n
}.

(** Code that draws random numbers: a state transformer on [G]. *)
Definition Gen (G A : Type) : Type := G -> A * G.

Definition gret {G A} (a : A) : Gen G A := fun g => (a, g).

Definition gbind {G A B} (m : Gen G A) (k : A -> Gen G B) : Gen G B :=
  fun g => let (a, g') := m g in k a g'.

Notation "x <- m ;; k" := (gbind m (fun x => k))
  (at level 100, m at next level, right associativity).

Inductive anomaly_type : Set :=
  | round_amount
  | high_amount
  | weekend
  | suspicious_pattern.

Section Generator.
Context {G : Type} `{Random G} `{Float64}.

(** [random.uniform(a, b)]: [a + (b - a) * self.random()]. *)
Definition uniform (a b : Z) : Gen G Q :=
  u <- random ;;
  gret (rnd (inject_Z a + rnd (inject_Z (b - a) * u)))%Q.

(** [random.randint(a, b)]: [a + self._randbelow(b - a + 1)]. *)
Definition randint (a b : Z) : Gen G Z :=
  r <- _randbelow (b - a + 1) ;;
  gret (a + r).

(** [random.choice(seq)] on the non-empty sequence [x :: xs]:
    [seq[self._randbelow(len(seq))]]. *)
Definition choice {A} (x : A) (xs : list A) : Gen G A :=
  i <- _randbelow (Z.of_nat (length (x :: xs))) ;;
  gret (nth (Z.to_nat i) (x :: xs) x).

Definition _generate_normal_invoice : Gen G (list Q) :=
  amount <- uniform 5000 50000 ;;
  noise <- uniform (-500) 500 ;;
  let amount := rnd (amount + noise)%Q in
  day_of_week <- randint 0 6 ;;
  day_of_month <- randint 1 28 ;;
  month <- randint 1 12 ;;
  number_length <- randint 8 15 ;;
  number_digits <- randint 5 10 ;;
  gret [ amount;
         log1p amount;
         py_mod amount 1000;
         inject_Z day_of_week;
         inject_Z day_of_month;
         inject_Z month;
         inject_Z number_length;
         inject_Z number_digits ].

Definition _generate_anomalous_invoice : Gen G (list Q) :=
  kind <- choice round_amount [high_amount; weekend; suspicious_pattern] ;;
  amount <-
    match kind with
    | round_amount =>
        a <- choice 10000 [15000; 20000; 25000; 50000; 75000; 100000] ;;
        gret (inject_Z a)
    | high_amount => uniform 100000 500000
    | weekend => uniform 10000 30000
    | suspicious_pattern => uniform 8000 40000
    end ;;
  day_of_week <- randint 0 6 ;;
  day_of_month <- randint 1 28 ;;
  month <- randint 1 12 ;;
  number_length <- randint 8 15 ;;
  number_digits <- randint 5 10 ;;
  gret [ amount;
         log1p amount;
         py_mod amount 1000;
         inject_Z day_of_week;
         inject_Z day_of_month;
         inject_Z month;
         inject_Z number_length;
         inject_Z number_digits ].

(** The body of [for i in range(num_samples)], [n] iterations left.
    The literal [0.8] is read as the rational 8/10. *)
Fixpoint generate_loop (n : nat) (training_data : list (list Q)) (labels : list Z)
  : Gen G (list (list Q) * list Z) :=
  match n with
  | O => gret (training_data, labels)
  | S n' =>
      u <- random ;;
      if Qltb u (8 # 10)
      then
        invoice <- _generate_normal_invoice ;;
        generate_loop n' (training_data ++ [invoice]) (labels ++ [0])
      else
        invoice <- _generate_anomalous_invoice ;;
        generate_loop n' (training_data ++ [invoice]) (labels ++ [1])
  end.

(** The two lists, as the arrays [np.array] makes of them; the progress
    line printed first is left out.  [range] of a negative number is
    empty. *)
Definition generate_training_data (num_samples : Z)
  : Gen G (list (list Q) * list Z) :=
  generate_loop (Z.to_nat num_samples) [] [].

(** The class an iteration assigns from its first draw [u]: normal
    ([0]) below the threshold, anomaly ([1]) from the threshold up. *)
Definition class_of (u : Q) : Z := if Qltb u (8 # 10) then 0 else 1.

(** One iteration of the loop started in state [g]: the invoice and
    the label it appends, and the state it leaves. *)
Definition iteration (g : G) : list Q * Z * G :=
  let u := fst (random g) in
  let g1 := snd (random g) in
  if Qltb u (8 # 10)
  then (fst (_generate_normal_invoice g1), 0, snd (_generate_normal_invoice g1))
  else (fst (_generate_anomalous_invoice g1), 1, snd (_generate_anomalous_invoice g1)).

End Generator.

(** The first dimension of a feature row, and its fourth. *)
Definition amount_of (row : list Q) : Q := nth 0 row 0%Q.
Definition day_of_week_of (row : list Q) : Q := nth 3 row 0%Q.

End Synth.

(** ** The trainer: training, evaluation, persistence, inference *)

Module Engine.

Inductive exn : Set :=
  | FileNotFoundError
  | PermissionError
  | IsADirectoryError
  | UnpicklingError
  | EOFError
  | KeyError (key : string)
  | TypeError
  | AttributeError
  | IndexError
  | ValueError.

Inductive result (A : Type) : Type :=
  | Ok (a : A)
  | Raise (e : exn).
Arguments Ok {A} a.
Arguments Raise {A} e.

Definition matrix : Type := list (list Q).

(** What the trainer imports from scikit-learn.  An estimator is a value
    of an opaque type; a method that fits returns the fitted estimator,
    which the trainer stores back where the Python object lives.
    [IsolationForest] stands for
    [IsolationForest(contamination=0.2, random_state=42, n_estimators=100)],
    [DBSCAN] for [DBSCAN(eps=0.5, min_samples=5)] and [train_test_split]
    for the call with [test_size=0.2, random_state=42].  [iforest_len]
    is [len(forest)], the number of fitted trees, which Python consults
    for the truth value of a forest.  [fit_transform] works on the
    scaler object itself and resets it before it looks at the data:
    [fit_failed s X] is the state a call that raises leaves it in. *)
Class Sklearn := {
  Scaler : Type;
  IForest : Type;
  Dbscan : Type;
  StandardScaler : Scaler;
  fit_transform : Scaler -> matrix -> result (Scaler * matrix);
  fit_failed : Scaler -> matrix -> Scaler;
  transform : Scaler -> matrix -> result matrix;
  IsolationForest : IForest;
  iforest_fit : IForest -> matrix -> result IForest;
  iforest_len : IForest -> result Z;
  predict : IForest -> matrix -> result (list Z);
  decision_function : IForest -> matrix -> result (list Q);
  DBSCAN : Dbscan;
  dbscan_fit : Dbscan -> matrix -> result Dbscan;
  train_test_split :
    matrix -> list Z -> result (matrix * matrix * list Z * list Z)
}.

(** Python objects the trainer holds in its fields or pickles. *)
#[warnings="-register-all"]
Inductive value `{Sklearn} : Type :=
  | VNone
  | VBool (b : bool)
  | VInt (z : Z)
  | VFloat (q : Q)
  | VStr (s : string)
  | VScaler (s : Scaler)
  | VIForest (m : IForest)
  | VDbscan (c : Dbscan)
  | VDict (items : list (string * value)).

(** [pickle.dump] and [pickle.load] on the contents of a file.
    [dumps v] is what [pickle.dump] writes, and [dump_error v] the
    exception it raises, if any, after writing it.  [loads] is [None]
    where [pickle.load] raises, and [load_error] is then the exception:
    [EOFError] on a file cut short, [UnpicklingError] on foreign bytes,
    or whatever the code run while unpickling raises. *)
Class Pickle `{Sklearn} := {
  blob : Type;
  dumps : value -> blob;
  dump_error : value -> option exn;
  loads : blob -> option value;
  load_error : blob -> exn
}.

Class PickleLaws `{Pickle} : Prop := {
  loads_dumps : forall v : value, dump_error v = None -> loads (dumps v) = Some v
}.

(** A NumPy scalar that may be NaN. *)
Inductive npfloat : Set :=
  | nan
  | fin (q : Q).

(** The lines the trainer prints, by the print statement they come from. *)
Inductive line : Set :=
  | SayTraining
  | SayIsolationForest
  | SayDBSCAN
  | SayEvaluation
  | SayAccuracy (accuracy : npfloat)
  | SayAnomalies (detected actual : Z)
  | SayTrained
  | SaySaved (filepath : string)
  | SayLoaded (filepath : string)
  | SayNotFound (filepath : string).

Section Trainer.
Context `{Pickle} `{Float64}.

(** A path of the file system names a regular file, a file the process
    may not open, a directory, or a place in a directory that does not
    exist, where no file is and none can be made.  A path without an
    entry names no file, in a directory that exists. *)
Inductive node : Type :=
  | Regular (data : blob)
  | Unreadable
  | Directory
  | NoParent.

Record trainer : Type := {
  models : value;
  scaler : value;
  is_trained : value
}.

Record world : Type := {
  self : trainer;
  files : gmap string node;
  clock : string;
  stdout : list line
}.

(** A method: it returns or raises, and leaves a world behind. *)
Definition Py (A : Type) : Type := world -> result A * world.

Definition ret {A} (a : A) : Py A := fun w => (Ok a, w).

Definition raise {A} (e : exn) : Py A := fun w => (Raise e, w).

Definition bind {A B} (m : Py A) (k : A -> Py B) : Py B :=
  fun w =>
    match m w with
    | (Ok a, w') => k a w'
    | (Raise e, w') => (Raise e, w')
    end.

(** [try: body except ...: handler], the handler chosen by [handles]. *)
Definition try_except {A} (body : Py A) (handles : exn -> option (Py A)) : Py A :=
  fun w =>
    match body w with
    | (Ok a, w') => (Ok a, w')
    | (Raise e, w') =>
        match handles e with
        | Some handler => handler w'
        | None => (Raise e, w')
        end
    end.

Definition lift {A} (r : result A) : Py A := fun w => (r, w).

Definition get_self : Py trainer := fun w => (Ok (self w), w).

Definition set_models (v : value) : Py unit := fun w =>
  (Ok tt,
   {| self := {| models := v; scaler := scaler (self w);
                 is_trained := is_trained (self w) |};
      files := files w; clock := clock w; stdout := stdout w |}).

Definition set_scaler (v : value) : Py unit := fun w =>
  (Ok tt,
   {| self := {| models := models (self w); scaler := v;
                 is_trained := is_trained (self w) |};
      files := files w; clock := clock w; stdout := stdout w |}).

Definition set_is_trained (v : value) : Py unit := fun w =>
  (Ok tt,
   {| self := {| models := models (self w); scaler := scaler (self w);
                 is_trained := v |};
      files := files w; clock := clock w; stdout := stdout w |}).

Definition print (l : line) : Py unit := fun w =>
  (Ok tt,
   {| self := self w; files := files w; clock := clock w;
      stdout := stdout w ++ [l] |}).

Notation "x <- m ;; k" := (bind m (fun x => k))
  (at level 100, m at next level, right associativity).
Notation "m ;;; k" := (bind m (fun _ => k))
  (at level 100, right associativity).

(** *** Python's object model, as far as the trainer uses it *)

(** Truth value of an object, as [if not x] tests it: [__bool__], else
    [__len__], else true. *)
Definition truthy (v : value) : result bool :=
  match v with
  | VNone => Ok false
  | VBool b => Ok b
  | VInt z => Ok (negb (z =? 0))
  | VFloat q => Ok (negb (Qeq_bool q 0))
  | VStr s => Ok (negb (String.eqb s ""))
  | VDict items => Ok (match items with [] => false | _ :: _ => true end)
  | VIForest m =>
      match iforest_len m with
      | Ok n => Ok (negb (n =? 0))
      | Raise e => Raise e
      end
  | VScaler _ | VDbscan _ => Ok true
  end.

Fixpoint dict_get (items : list (string * value)) (key : string) : option value :=
  match items with
  | [] => None
  | (k, v) :: rest => if String.eqb k key then Some v else dict_get rest key
  end.

(** A dict keeps the position of a key that is assigned again and puts
    a new key last. *)
Fixpoint dict_set (items : list (string * value)) (key : string) (x : value)
  : list (string * value) :=
  match items with
  | [] => [(key, x)]
  | (k, v) :: rest =>
      if String.eqb k key then (k, x) :: rest else (k, v) :: dict_set rest key x
  end.

(** [obj[key]] *)
Definition getitem (obj : value) (key : string) : result value :=
  match obj with
  | VDict items =>
      match dict_get items key with
      | Some v => Ok v
      | None => Raise (KeyError key)
      end
  | _ => Raise TypeError
  end.

(** [obj[key] = x] *)
Definition setitem (obj : value) (key : string) (x : value) : result value :=
  match obj with
  | VDict items => Ok (VDict (dict_set items key x))
  | _ => Raise TypeError
  end.

(** Looking up a method an object does not have raises [AttributeError]:
    [transform] and [fit_transform] exist on the scaler only, [predict]
    and [decision_function] on the isolation forest only. *)
Definition as_scaler (obj : value) : result Scaler :=
  match obj with
  | VScaler s => Ok s
  | _ => Raise AttributeError
  end.

Definition as_iforest (obj : value) : result IForest :=
  match obj with
  | VIForest m => Ok m
  | _ => Raise AttributeError
  end.

(** [fit] exists on every estimator; the trainer calls it on the
    estimator it has just stored. *)
Definition call_fit (obj : value) (X : matrix) : result value :=
  match obj with
  | VIForest m =>
      match iforest_fit m X with Ok m' => Ok (VIForest m') | Raise e => Raise e end
  | VDbscan c =>
      match dbscan_fit c X with Ok c' => Ok (VDbscan c') | Raise e => Raise e end
  | VScaler s =>
      match fit_transform s X with Ok (s', _) => Ok (VScaler s') | Raise e => Raise e end
  | _ => Raise AttributeError
  end.

(** [a[0]] on an array *)
Definition first {A} (a : list A) : result A :=
  match a with
  | x :: _ => Ok x
  | [] => Raise IndexError
  end.

(** *** NumPy on one-dimensional arrays *)

(** [np.where(a == c, x, y)] *)
Definition np_where_eq (a : list Z) (c x y : Z) : list Z :=
  map (fun p => if p =? c then x else y) a.

Fixpoint zip_eq (a b : list Z) : list bool :=
  match a, b with
  | p :: a', l :: b' => (p =? l) :: zip_eq a' b'
  | _, _ => []
  end.

(** [a == b]: elementwise on equal shapes, a one-element array is
    broadcast, other shapes do not go together. *)
Definition np_equal (a b : list Z) : result (list bool) :=
  if (length a =? length b)%nat then Ok (zip_eq a b)
  else
    match a, b with
    | [p], _ => Ok (map (fun l => p =? l) b)
    | _, [l] => Ok (map (fun p => p =? l) a)
    | _, _ => Raise ValueError
    end.

Definition np_sum (a : list Z) : Z := fold_left Z.add a 0.

Definition bool_to_Z (b : bool) : Z := if b then 1 else 0.

(** [np.mean] of a boolean array: the sum of its entries as numbers,
    divided by its size; NaN when the array is empty. *)
Definition np_mean (a : list bool) : npfloat :=
  match a with
  | [] => nan
  | _ :: _ =>
      fin (rnd (inject_Z (np_sum (map bool_to_Z a)) / inject_Z (Z.of_nat (length a))))
  end.

(** *** Files *)

Definition with_files (fs : gmap string node) (w : world) : world :=
  {| self := self w; files := fs; clock := clock w; stdout := stdout w |}.

(** [with open(filepath, 'rb') as f: pickle.load(f)] *)
Definition open_rb_load (filepath : string) : Py value := fun w =>
  match files w !! filepath with
  | None => (Raise FileNotFoundError, w)
  | Some NoParent => (Raise FileNotFoundError, w)
  | Some Directory => (Raise IsADirectoryError, w)
  | Some Unreadable => (Raise PermissionError, w)
  | Some (Regular data) =>
      match loads data with
      | Some v => (Ok v, w)
      | None => (Raise (load_error data), w)
      end
  end.

(** [with open(filepath, 'wb') as f: pickle.dump(obj, f)]: [open]
    makes the file or empties it, then [pickle.dump] writes; when it
    raises, what it wrote stays in the file. *)
Definition open_wb_dump (filepath : string) (obj : value) : Py unit := fun w =>
  match files w !! filepath with
  | Some Directory => (Raise IsADirectoryError, w)
  | Some Unreadable => (Raise PermissionError, w)
  | Some NoParent => (Raise FileNotFoundError, w)
  | _ =>
      let written := with_files (<[filepath := Regular (dumps obj)]> (files w)) w in
      match dump_error obj with
      | None => (Ok tt, written)
      | Some e => (Raise e, written)
      end
  end.

(** *** The methods of [FintelMLTrainer] *)

Definition __init__ : trainer :=
  {| models := VDict [];
     scaler := VScaler StandardScaler;
     is_trained := VBool false |}.

Definition _evaluate_models (X_test : matrix) (y_test : list Z) : Py unit :=
  print SayEvaluation ;;;
  me <- get_self ;;
  forest <- lift (getitem (models me) "isolation_forest") ;;
  forest <- lift (as_iforest forest) ;;
  iso_pred <- lift (predict forest X_test) ;;
  let iso_pred := np_where_eq iso_pred (-1) 1 0 in
  hits <- lift (np_equal iso_pred y_test) ;;
  let accuracy := np_mean hits in
  print (SayAccuracy accuracy) ;;;
  let anomalies_detected := np_sum iso_pred in
  let actual_anomalies := np_sum y_test in
  print (SayAnomalies anomalies_detected actual_anomalies).

(** [self.models[name] = estimator] followed by
    [self.models[name].fit(X)], which fits the stored object in place. *)
Definition store_and_fit (name : string) (estimator : value) (X : matrix) : Py unit :=
  me <- get_self ;;
  d <- lift (setitem (models me) name estimator) ;;
  set_models d ;;;
  me <- get_self ;;
  est <- lift (getitem (models me) name) ;;
  fitted <- lift (call_fit est X) ;;
  d <- lift (setitem (models me) name fitted) ;;
  set_models d.

(** [self.scaler.fit_transform(X)] on the scaler [s] the field holds:
    a call that raises has changed the stored scaler before. *)
Definition fit_transform_stored (s : Scaler) (X : matrix) : Py (Scaler * matrix) :=
  match fit_transform s X with
  | Ok fitted => ret fitted
  | Raise e => set_scaler (VScaler (fit_failed s X)) ;;; raise e
  end.

Definition train_models (training_data : matrix) (labels : list Z) : Py unit :=
  print SayTraining ;;;
  split <- lift (train_test_split training_data labels) ;;
  let '(X_train, X_test, y_train, y_test) := split in
  me <- get_self ;;
  sc <- lift (as_scaler (scaler me)) ;;
  fitted <- fit_transform_stored sc X_train ;;
  let '(sc, X_train_scaled) := fitted in
  set_scaler (VScaler sc) ;;;
  me <- get_self ;;
  sc <- lift (as_scaler (scaler me)) ;;
  X_test_scaled <- lift (transform sc X_test) ;;
  print SayIsolationForest ;;;
  store_and_fit "isolation_forest" (VIForest IsolationForest) X_train_scaled ;;;
  print SayDBSCAN ;;;
  store_and_fit "dbscan" (VDbscan DBSCAN) X_train_scaled ;;;
  _evaluate_models X_test_scaled y_test ;;;
  set_is_trained (VBool true) ;;;
  print SayTrained.

Definition predict_anomaly (invoice_features : list Q) : Py value :=
  me <- get_self ;;
  trained <- lift (truthy (is_trained me)) ;;
  if negb trained
  then ret (VDict [("error", VStr "Models not trained yet!")])
  else
    sc <- lift (as_scaler (scaler me)) ;;
    features_scaled <- lift (transform sc [invoice_features]) ;;
    forest <- lift (getitem (models me) "isolation_forest") ;;
    forest <- lift (as_iforest forest) ;;
    preds <- lift (predict forest features_scaled) ;;
    iso_pred <- lift (first preds) ;;
    forest <- lift (getitem (models me) "isolation_forest") ;;
    forest <- lift (as_iforest forest) ;;
    scores <- lift (decision_function forest features_scaled) ;;
    anomaly_score <- lift (first scores) ;;
    ret (VDict [ ("is_anomaly", VBool (iso_pred =? -1));
                 ("anomaly_score", VFloat anomaly_score);
                 ("confidence", VFloat (rnd (Qabs anomaly_score * 100)));
                 ("method", VStr "trained_isolation_forest") ]).

Definition default_filepath : string := "fintel_models.pkl".

Definition save_models (filepath : string) : Py unit :=
  me <- get_self ;;
  now <- (fun w => (Ok (clock w), w)) ;;
  let model_data :=
    VDict [ ("models", models me);
            ("scaler", scaler me);
            ("is_trained", is_trained me);
            ("trained_at", VStr now) ] in
  open_wb_dump filepath model_data ;;;
  print (SaySaved filepath).

Definition load_models (filepath : string) : Py bool :=
  try_except
    (model_data <- open_rb_load filepath ;;
     v <- lift (getitem model_data "models") ;;
     set_models v ;;;
     v <- lift (getitem model_data "scaler") ;;
     set_scaler v ;;;
     v <- lift (getitem model_data "is_trained") ;;
     set_is_trained v ;;;
     print (SayLoaded filepath) ;;;
     ret true)
    (fun e =>
       match e with
       | FileNotFoundError => Some (print (SayNotFound filepath) ;;; ret false)
       | _ => None
       end).

End Trainer.

End Engine.

(** ** Concrete collaborators

    Small, total implementations of the interfaces above, on which the
    trainer can be run. *)

(** Fixed-point numbers with ten fractional bits; [log1p] is not
    computed and returns its argument rounded. *)
#[local] Instance fixed_point : Float64 := {
  rnd x := (Qfloor (x * 1024) # 1024)%Q;
  log1p x := (Qfloor (x * 1024) # 1024)%Q
}.

(** A generator that replays a tape of raw draws and then only zeros. *)
#[local] Instance tape_random : Synth.Random (list Z) := {
  Synth.random t :=
    match t with
    | [] => (0%Q, [])
    | k :: t' => (((k mod 1000) # 1000)%Q, t')
    end;
  Synth._randbelow n t :=
    match t with
    | [] => (0, [])
    | k :: t' => (k mod n, t')
    end
}.

(** A threshold detector in place of scikit-learn: the scaler divides
    every entry by a fixed scale, the forest flags rows whose first
    entry exceeds its threshold, and the split sends the first fifth of
    the rows (rounded up) to the test set. *)
Definition stub_split (X : Engine.matrix) (y : list Z)
  : Engine.result (Engine.matrix * Engine.matrix * list Z * list Z) :=
  let k := ((length X + 4) / 5)%nat in
  match skipn k X with
  | [] => Engine.Raise Engine.ValueError
  | _ :: _ => Engine.Ok (skipn k X, firstn k X, skipn k y, firstn k y)
  end.

Definition stub_scale (scale : Q) (X : Engine.matrix) : Engine.matrix :=
  map (map (fun x => x / scale)%Q) X.

Definition stub_score (threshold : Q) (row : list Q) : Q :=
  (threshold - nth 0 row 0)%Q.

#[local] Instance stub_sklearn : Engine.Sklearn := {
  Engine.Scaler := option Q;
  Engine.IForest := option Q;
  Engine.Dbscan := bool;
  Engine.StandardScaler := None;
  Engine.fit_transform s X :=
    match X with
    | [] => Engine.Raise Engine.ValueError
    | _ :: _ => Engine.Ok (Some 1000%Q, stub_scale 1000 X)
    end;
  Engine.fit_failed s X := None;
  Engine.transform s X :=
    match s with
    | Some scale => Engine.Ok (stub_scale scale X)
    | None => Engine.Raise Engine.ValueError
    end;
  Engine.IsolationForest := None;
  Engine.iforest_fit m X := Engine.Ok (Some 60%Q);
  Engine.iforest_len m :=
    match m with
    | Some _ => Engine.Ok 100
    | None => Engine.Raise Engine.AttributeError
    end;
  Engine.predict m X :=
    match m with
    | Some threshold =>
        Engine.Ok (map (fun row => if Qltb (stub_score threshold row) 0 then -1 else 1) X)
    | None => Engine.Raise Engine.ValueError
    end;
  Engine.decision_function m X :=
    match m with
    | Some threshold => Engine.Ok (map (stub_score threshold) X)
    | None => Engine.Raise Engine.ValueError
    end;
  Engine.DBSCAN := false;
  Engine.dbscan_fit c X := Engine.Ok true;
  Engine.train_test_split := stub_split
}.

(** A pickle that stores the object itself, or the exception that
    unpickling the file raises. *)
#[local] Instance mem_pickle : Engine.Pickle := {
  Engine.blob := Engine.result Engine.value;
  Engine.dumps v := Engine.Ok v;
  Engine.dump_error v := None;
  Engine.loads b :=
    match b with
    | Engine.Ok v => Some v
    | Engine.Raise _ => None
    end;
  Engine.load_error b :=
    match b with
    | Engine.Ok _ => Engine.UnpicklingError
    | Engine.Raise e => e
    end
}.

(** ** Sample runs

    The invoices [main] scores, and worlds on which the trainer is run
    with the collaborators above. *)

Definition normal_invoice : list Q :=
  [15000; 961 # 100; 250; 2; 15; 10; 11; 7]%Q.

Definition suspicious_invoice : list Q :=
  [50000; 1082 # 100; 0; 1; 29; 10; 12; 7]%Q.

Definition blank_world : Engine.world :=
  {| Engine.self := Engine.__init__;
     Engine.files := ∅;
     Engine.clock := "2024-01-01T00:00:00";
     Engine.stdout := [] |}.

(** Draws for ten invoices: one high-amount anomaly, one normal
    invoice, one weekend anomaly, then zeros. *)
Definition demo_tape : list Z :=
  [ 900; 1; 500; 3; 4; 5; 6; 7;
    100; 250; 750; 1; 2; 3; 4; 5;
    850; 2; 500; 2; 9; 9; 9; 9 ].

Definition demo_batch : list (list Q) * list Z :=
  fst (Synth.generate_training_data 10 demo_tape).

Definition demo_trained : Engine.world :=
  snd (Engine.train_models (fst demo_batch) (snd demo_batch) blank_world).



(** ** The command-line run *)

Module Demo.

Section Main.
Context {G : Type} `{Synth.Random G} `{Engine.Pickle} `{Float64}.

(** What [main] prints itself, between the trainer's lines: the three
    numbers of the data summary and the two records returned by
    [predict_anomaly]. *)
Record printed : Type := {
  total_samples : Z;
  normal_invoices : Z;
  anomalous_invoices : Z;
  normal_result : Engine.value;
  suspicious_result : Engine.value
}.

(** [np.sum(labels == c)] *)
Definition count_labels (labels : list Z) (c : Z) : Z :=
  Engine.np_sum (map Engine.bool_to_Z (map (fun l => l =? c) labels)).

(** [main] builds a new trainer, generates 1000 invoices with the
    generator in state [g], trains, scores the two sample invoices and
    saves under the default name.  Its banner lines are left out, and
    what it prints of its own is returned when it completes. *)
Definition main (g : G) : Engine.Py printed := fun w =>
  let trainer :=
    {| Engine.self := Engine.__init__;
       Engine.files := Engine.files w;
       Engine.clock := Engine.clock w;
       Engine.stdout := Engine.stdout w |} in
  let '(training_data, labels, _) := Synth.generate_training_data 1000 g in
  Engine.bind (Engine.train_models training_data labels) (fun _ =>
  Engine.bind (Engine.predict_anomaly normal_invoice) (fun result1 =>
  Engine.bind (Engine.predict_anomaly suspicious_invoice) (fun result2 =>
  Engine.bind (Engine.save_models Engine.default_filepath) (fun _ =>
  Engine.ret
    {| total_samples := Z.of_nat (length training_data);
       normal_invoices := count_labels labels 0;
       anomalous_invoices := count_labels labels 1;
       normal_result := result1;
       suspicious_result := result2 |}))))
  trainer.

End Main.

End Demo.

(** ** A scikit-learn whose forest cannot be fitted

    The collaborators above with [IsolationForest.fit] raising, and a
    trainer that was trained before, to run a training that fails half
    way. *)

Definition brittle_sklearn : Engine.Sklearn :=
  {| Engine.Scaler := option Q;
     Engine.IForest := option Q;
     Engine.Dbscan := bool;
     Engine.StandardScaler := None;
     Engine.fit_transform := @Engine.fit_transform stub_sklearn;
     Engine.fit_failed := fun _ _ => None;
     Engine.transform := @Engine.transform stub_sklearn;
     Engine.IsolationForest := None;
     Engine.iforest_fit := fun _ _ => Engine.Raise Engine.ValueError;
     Engine.iforest_len := @Engine.iforest_len stub_sklearn;
     Engine.predict := @Engine.predict stub_sklearn;
     Engine.decision_function := @Engine.decision_function stub_sklearn;
     Engine.DBSCAN := false;
     Engine.dbscan_fit := fun _ _ => Engine.Ok true;
     Engine.train_test_split := stub_split |}.

Definition brittle_pickle : @Engine.Pickle brittle_sklearn :=
  {| Engine.blob := option (@Engine.value brittle_sklearn);
     Engine.dumps := fun v => Some v;
     Engine.dump_error := fun _ => None;
     Engine.loads := fun b => b;
     Engine.load_error := fun _ => Engine.UnpicklingError |}.

Definition brittle_world : @Engine.world brittle_sklearn brittle_pickle :=
  {| Engine.self :=
       {| Engine.models := @Engine.VDict brittle_sklearn [];
          Engine.scaler := @Engine.VScaler brittle_sklearn (Some 1000%Q);
          Engine.is_trained := @Engine.VBool brittle_sklearn true |};
     Engine.files := ∅;
     Engine.clock := "2024-01-01T00:00:00";
     Engine.stdout := [] |}.

(** Draws that make [_generate_anomalous_invoice] take the round-amount
    branch (with the amount 25,000) and the weekend branch. *)
Definition round_tape : list Z := [0; 3; 1; 2; 3; 4; 5].

Definition weekend_tape : list Z := [2; 500; 2; 3; 4; 5; 6].

(** A trainer whose flag is set while it holds no model, as after
    loading an artifact written that way. *)
Definition flagged_world : Engine.world :=
  {| Engine.self :=
       {| Engine.models := Engine.VDict [];
          Engine.scaler := Engine.VScaler (Some 1000%Q);
          Engine.is_trained := Engine.VBool true |};
     Engine.files := ∅;
     Engine.clock := "2024-01-01T00:00:00";
     Engine.stdout := [] |}.

(** Worlds around the trained demo trainer whose artifact is a dict
    with ['models'] only, is the pickle of [None], or is a directory. *)
Definition partial_world : Engine.world :=
  Engine.with_files
    {[ Engine.default_filepath :=
         @Engine.Regular stub_sklearn mem_pickle
           (Engine.Ok (Engine.VDict [("models", Engine.VDict [])])) ]}
    demo_trained.









(** A fresh trainer that already holds a model under another key. *)
Definition kmeans_world : Engine.world :=
  {| Engine.self :=
       {| Engine.models := Engine.VDict [("kmeans", Engine.VStr "KMeans(n_clusters=2)")];
          Engine.scaler := Engine.VScaler Engine.StandardScaler;
          Engine.is_trained := Engine.VBool false |};
     Engine.files := ∅;
     Engine.clock := "2024-01-01T00:00:00";
     Engine.stdout := [] |}.

(** * Properties of the feature synthesizer *)

Section SynthFacts.
Import Synth.
Context {G : Type} `{Random G} `{Float64}.

Lemma gbind_eq {A B} (m : Gen G A) (k : A -> Gen G B) (g : G) :
  gbind m k g = k (fst (m g)) (snd (m g)).
Proof. unfold gbind. destruct (m g); reflexivity. Qed.

Context {RL : RandomLaws G} {FL : Float64Laws}.

Lemma rnd_between (lo hi : Z) (x : Q) :
  Z.abs lo <= 2 ^ 53 -> Z.abs hi <= 2 ^ 53 ->
  (inject_Z lo <= x <= inject_Z hi)%Q ->
  (inject_Z lo <= rnd x <= inject_Z hi)%Q.
Proof.
  intros Hlo Hhi [H1 H2]. split.
  - rewrite <- (rnd_int lo Hlo). now apply rnd_mono.
  - rewrite <- (rnd_int hi Hhi). now apply rnd_mono.
Qed.

Lemma uniform_range (a b : Z) (g : G) :
  a <= b -> Z.abs a <= 2 ^ 53 -> Z.abs b <= 2 ^ 53 -> b - a <= 2 ^ 53 ->
  (inject_Z a <= fst (uniform a b g) <= inject_Z b)%Q.
Proof.
  intros Hab Ha Hb Hba. unfold uniform. rewrite gbind_eq. cbn [gret fst].
  destruct (random_range g) as [Hu0 Hu1].
  set (u := fst (random g)) in *.
  assert (Hw : Z.abs (b - a) <= 2 ^ 53) by lia.
  assert (Ht : (inject_Z 0 <= rnd (inject_Z (b - a) * u) <= inject_Z (b - a))%Q).
  { apply rnd_between; [lia | exact Hw |].
    assert (Hd : (0 <= inject_Z (b - a))%Q)
      by (unfold Qle; simpl; lia).
    change (inject_Z 0) with 0%Q. split.
    - now apply Qmult_le_0_compat.
    - apply Qle_trans with (1 * inject_Z (b - a))%Q.
      + rewrite (Qmult_comm (inject_Z (b - a)) u).
        apply Qmult_le_compat_r; [now apply Qlt_le_weak | exact Hd].
      + rewrite Qmult_1_l. apply Qle_refl. }
  apply rnd_between; [exact Ha | exact Hb |].
  change (inject_Z 0) with 0%Q in Ht.
  unfold Z.sub in Ht. rewrite inject_Z_plus, inject_Z_opp in Ht.
  unfold Z.sub. rewrite inject_Z_plus, inject_Z_opp.
  split; lra.
Qed.

Lemma normal_invoice_amount (g : G) :
  (4500 <= amount_of (fst (_generate_normal_invoice g)) <= 50500)%Q.
Proof.
  unfold _generate_normal_invoice. rewrite !gbind_eq. cbn [gret fst amount_of nth].
  pose proof (uniform_range 5000 50000 g) as Hx.
  pose proof (uniform_range (-500) 500 (snd (uniform 5000 50000 g))) as Hn.
  specialize (Hx ltac:(lia) ltac:(lia) ltac:(lia) ltac:(lia)).
  specialize (Hn ltac:(lia) ltac:(lia) ltac:(lia) ltac:(lia)).
  apply (rnd_between 4500 50500); [lia | lia |].
  change (inject_Z 5000) with 5000%Q in Hx. change (inject_Z 50000) with 50000%Q in Hx.
  change (inject_Z (-500)) with (-500)%Q in Hn. change (inject_Z 500) with 500%Q in Hn.
  change (inject_Z 4500) with 4500%Q. change (inject_Z 50500) with 50500%Q.
  split; lra.
Qed.

Lemma high_amount_invoice_amount (g : G) :
  fst (choice round_amount [high_amount; weekend; suspicious_pattern] g) = high_amount ->
  (100000 <= amount_of (fst (_generate_anomalous_invoice g)) <= 500000)%Q.
Proof.
  intros Hk. unfold _generate_anomalous_invoice.
  rewrite gbind_eq, Hk. rewrite !gbind_eq. cbn [gret fst amount_of nth].
  apply (uniform_range 100000 500000); lia.
Qed.

Lemma generate_loop_S n d l g :
  generate_loop (S n) d l g =
  generate_loop n (d ++ [fst (fst (iteration g))]) (l ++ [snd (fst (iteration g))])
    (snd (iteration g)).
Proof.
  cbn [generate_loop]. rewrite gbind_eq. unfold iteration.
  destruct (Qltb (fst (random g)) (8 # 10)); rewrite gbind_eq; reflexivity.
Qed.

Lemma iteration_label g : snd (fst (iteration g)) = class_of (fst (random g)).
Proof. unfold iteration, class_of. now destruct (Qltb _ _). Qed.

Lemma generate_loop_extends n : forall d l g,
  exists d' l',
    fst (generate_loop n d l g) = (d ++ d', l ++ l') /\
    length d' = n /\ length l' = n /\
    (forall k, n = S k -> nth 0 l' 0 = class_of (fst (random g))).
Proof.
  induction n as [|n IH]; intros d l g.
  - exists [], []. cbn. rewrite !app_nil_r. repeat split; congruence.
  - rewrite generate_loop_S.
    destruct (IH (d ++ [fst (fst (iteration g))]) (l ++ [snd (fst (iteration g))])
                 (snd (iteration g))) as (d' & l' & E & Hd & Hl & _).
    exists (fst (fst (iteration g)) :: d'), (snd (fst (iteration g)) :: l').
    rewrite E, <- !app_assoc. cbn [app length nth]. repeat split; try congruence.
    intros _ _. apply iteration_label.
Qed.

Lemma generate_loop_add i : forall k d l g,
  generate_loop (i + k) d l g =
  generate_loop k (fst (fst (generate_loop i d l g))) (snd (fst (generate_loop i d l g)))
    (snd (generate_loop i d l g)).
Proof.
  induction i as [|i IH]; intros k d l g.
  - reflexivity.
  - cbn [Nat.add]. rewrite !generate_loop_S. apply IH.
Qed.

Lemma generate_loop_bands n : forall d l g,
  Forall2 (fun row label => label = 0 -> (4500 <= amount_of row <= 50500)%Q) d l ->
  Forall2 (fun row label => label = 0 -> (4500 <= amount_of row <= 50500)%Q)
    (fst (fst (generate_loop n d l g))) (snd (fst (generate_loop n d l g))).
Proof.
  induction n as [|n IH]; intros d l g Hdl.
  - exact Hdl.
  - rewrite generate_loop_S. apply IH. apply Forall2_app; [exact Hdl |].
    constructor; [| constructor].
    unfold iteration. destruct (Qltb _ _); cbn [fst snd].
    + intros _. apply normal_invoice_amount.
    + discriminate.
Qed.

Lemma class_of_threshold (u : Q) :
  (class_of u = 1 <-> (8 # 10 <= u)%Q) /\ (class_of u = 0 <-> (u < 8 # 10)%Q).
Proof.
  unfold class_of, Qltb.
  destruct (Qle_bool (8 # 10) u) eqn:E; cbn [negb].
  - apply Qle_bool_iff in E. split; split; try easy.
    intros Hlt. exfalso. exact (Qlt_not_le _ _ Hlt E).
  - assert (Hn : ~ (8 # 10 <= u)%Q).
    { intros Hle. apply Qle_bool_iff in Hle. congruence. }
    split; split; try easy.
    intros _. now apply Qnot_le_lt.
Qed.

Lemma generate_training_data_shape (n : Z) (g : G) :
  length (fst (fst (generate_training_data n g))) = Z.to_nat n /\
  length (snd (fst (generate_training_data n g))) = Z.to_nat n.
Proof.
  unfold generate_training_data.
  destruct (generate_loop_extends (Z.to_nat n) [] [] g) as (d' & l' & E & Hd & Hl & _).
  rewrite E. cbn [fst snd app]. now split.
Qed.

Lemma generate_training_data_label (n : Z) (g : G) (i : nat) :
  (i < Z.to_nat n)%nat ->
  nth i (snd (fst (generate_training_data n g))) 0 =
  class_of (fst (random (snd (generate_training_data (Z.of_nat i) g)))).
Proof.
  intros Hi. unfold generate_training_data. rewrite Nat2Z.id.
  replace (Z.to_nat n) with (i + S (Z.to_nat n - S i))%nat by lia.
  rewrite generate_loop_add.
  destruct (generate_loop_extends i [] [] g) as (d1 & l1 & E1 & Hd1 & Hl1 & _).
  rewrite E1. cbn [fst snd app].
  destruct (generate_loop_extends (S (Z.to_nat n - S i)) d1 l1 (snd (generate_loop i [] [] g)))
    as (d2 & l2 & E2 & Hd2 & Hl2 & Hfirst).
  rewrite E2. cbn [fst snd].
  rewrite app_nth2 by lia. rewrite Hl1, Nat.sub_diag.
  now apply (Hfirst (Z.to_nat n - S i)%nat).
Qed.

(** C7. A normal-class sample has its amount in [4,500, 50,500]: this
    holds for every invoice [_generate_normal_invoice] returns and for
    every row of a generated batch whose label is 0.  An anomalous
    sample of the high-amount archetype has its amount in
    [100,000, 500,000]. *)
Theorem amount_bands :
  (forall g : G,
      (4500 <= amount_of (fst (_generate_normal_invoice g)) <= 50500)%Q) /\
  (forall (n : Z) (g : G),
      Forall2 (fun row label => label = 0 -> (4500 <= amount_of row <= 50500)%Q)
        (fst (fst (generate_training_data n g)))
        (snd (fst (generate_training_data n g)))) /\
  (forall g : G,
      fst (choice round_amount [high_amount; weekend; suspicious_pattern] g) = high_amount ->
      (100000 <= amount_of (fst (_generate_anomalous_invoice g)) <= 500000)%Q).
Proof.
  split; [| split].
  - exact normal_invoice_amount.
  - intros n g. apply generate_loop_bands. constructor.
  - exact high_amount_invoice_amount.
Qed.

End SynthFacts.

Lemma fixed_point_laws : @Float64Laws fixed_point.
Proof.
  split.
  - intros x y Hxy. cbn [rnd fixed_point].
    assert (Hf : Qfloor (x * 1024) <= Qfloor (y * 1024)).
    { apply Qfloor_resp_le. apply Qmult_le_compat_r; [exact Hxy | easy]. }
    unfold Qle. cbn [Qnum Qden]. lia.
  - intros z _. cbn [rnd fixed_point].
    assert (E : (inject_Z z * 1024 == inject_Z (z * 1024))%Q).
    { unfold Qeq. cbn. lia. }
    rewrite (Qfloor_comp _ _ E), Qfloor_Z.
    unfold Qeq. cbn. lia.
Qed.

Lemma tape_random_laws : @Synth.RandomLaws (list Z) tape_random.
Proof.
  split.
  - intros [|k t]; cbn.
    + split; easy.
    + pose proof (Z.mod_pos_bound k 1000 ltac:(lia)).
      unfold Qle, Qlt. cbn. split; lia.
  - intros n [|k t] Hn; cbn.
    + lia.
    + now apply Z.mod_pos_bound.
Qed.

(** C6. A generated batch has [n] feature rows and [n] labels.  The
    label of sample [i] is decided by one draw of [random()] made when
    iteration [i] starts, in the state the first [i] iterations left:
    anomaly (1) exactly when that draw is at least 0.8, that is on a
    fifth of the unit interval, and normal (0) otherwise.  The number of
    anomalies is not fixed by [n]: on the tape generator, three samples
    have no anomaly when the draws are all zero and one anomaly when
    the first draw is 0.9. *)
Theorem generate_training_data_bernoulli :
  (forall (G : Type) (R : Synth.Random G) (F : Float64) (n : Z) (g : G),
      length (fst (fst (Synth.generate_training_data n g))) = Z.to_nat n /\
      length (snd (fst (Synth.generate_training_data n g))) = Z.to_nat n /\
      forall i : nat, (i < Z.to_nat n)%nat ->
        nth i (snd (fst (Synth.generate_training_data n g))) 0 =
        Synth.class_of
          (fst (Synth.random (snd (Synth.generate_training_data (Z.of_nat i) g))))) /\
  (forall u : Q,
      (Synth.class_of u = 1 <-> (8 # 10 <= u)%Q) /\
      (Synth.class_of u = 0 <-> (u < 8 # 10)%Q)) /\
  count_occ Z.eq_dec (snd (fst (Synth.generate_training_data 3 ([] : list Z)))) 1 = 0%nat /\
  count_occ Z.eq_dec (snd (fst (Synth.generate_training_data 3 [900]))) 1 = 1%nat.
Proof.
  split; [| split; [| split]].
  - intros G R F n g.
    destruct (generate_training_data_shape n g) as [Hx Hy].
    repeat split; [exact Hx | exact Hy |].
    intros i Hi. now apply generate_training_data_label.
  - exact class_of_threshold.
  - vm_compute. reflexivity.
  - vm_compute. reflexivity.
Qed.

Lemma generate_training_data_bernoulli_witness :
  nth 0 (snd (fst (Synth.generate_training_data 3 [900]))) 0 =
  Synth.class_of (fst (Synth.random (snd (Synth.generate_training_data (Z.of_nat 0) [900])))).
Proof.
  apply (proj1 generate_training_data_bernoulli (list Z) tape_random fixed_point 3 [900]).
  cbn. lia.
Defined.

Lemma amount_bands_witness :
  (4500 <= Synth.amount_of (fst (Synth._generate_normal_invoice (skipn 8 demo_tape))) <= 50500)%Q /\
  (100000 <= Synth.amount_of (fst (Synth._generate_anomalous_invoice (skipn 1 demo_tape))) <= 500000)%Q.
Proof.
  pose proof (@amount_bands (list Z) tape_random fixed_point tape_random_laws fixed_point_laws)
    as (Hnormal & _ & Hhigh).
  split.
  - apply Hnormal.
  - apply Hhigh. reflexivity.
Defined.

(** C8. The weekend archetype does not make a weekend invoice: with the
    draws below [random.choice] picks ['weekend'], and the day-of-week
    dimension of the invoice is 2, a day in the middle of the week; the
    branch only draws the amount from 10,000 to 30,000. *)
Theorem weekend_archetype_midweek :
  let g := [2; 500; 2; 3; 4; 5; 6] in
  fst (Synth.choice Synth.round_amount
         [Synth.high_amount; Synth.weekend; Synth.suspicious_pattern] g) = Synth.weekend /\
  Synth.day_of_week_of (fst (Synth._generate_anomalous_invoice g)) = 2%Q /\
  (Synth.amount_of (fst (Synth._generate_anomalous_invoice g)) == 20000)%Q.
Proof. vm_compute. repeat split. Qed.

(** * Properties of the trainer *)

Section TrainerFacts.
Import Engine.
Context `{Pickle} `{Float64}.

Lemma dict_get_set_eq items key x : dict_get (dict_set items key x) key = Some x.
Proof.
  induction items as [|[k v] rest IH]; cbn.
  - now rewrite String.eqb_refl.
  - destruct (String.eqb k key) eqn:E; cbn; rewrite E; [reflexivity | exact IH].
Qed.

Lemma dict_get_set_ne items key key' x :
  key <> key' -> dict_get (dict_set items key x) key' = dict_get items key'.
Proof.
  intros Hne. induction items as [|[k v] rest IH]; cbn.
  - destruct (String.eqb key key') eqn:E; [| reflexivity].
    apply String.eqb_eq in E. contradiction.
  - destruct (String.eqb k key) eqn:E; cbn.
    + apply String.eqb_eq in E. subst k.
      destruct (String.eqb key key') eqn:E'; [| reflexivity].
      apply String.eqb_eq in E'. contradiction.
    + now rewrite IH.
Qed.

Lemma np_sum_cons x a : np_sum (x :: a) = x + np_sum a.
Proof.
  unfold np_sum. cbn [fold_left]. rewrite Z.add_0_l.
  revert x. induction a as [|y a IH]; intros x; cbn [fold_left].
  - lia.
  - rewrite (IH (x + y)), (IH (0 + y)). lia.
Qed.

Lemma np_sum_hits (a b : list Z) :
  np_sum (map bool_to_Z (zip_eq a b)) =
  Z.of_nat (length (List.filter (fun '(p, l) => p =? l) (combine a b))).
Proof.
  revert b. induction a as [|p a IH]; intros [|l b]; try reflexivity.
  cbn [zip_eq map combine List.filter]. rewrite np_sum_cons, IH.
  destruct (p =? l); cbn [bool_to_Z length]; lia.
Qed.

Lemma length_zip_eq (a b : list Z) :
  length a = length b -> length (zip_eq a b) = length b.
Proof.
  revert b. induction a as [|p a IH]; intros [|l b]; cbn; try congruence.
  intros E. f_equal. apply IH. congruence.
Qed.







Lemma predict_anomaly_untrained (v : list Q) (w : world) :
  truthy (is_trained (self w)) = Ok false ->
  predict_anomaly v w = (Ok (VDict [("error", VStr "Models not trained yet!")]), w).
Proof.
  intros Ht. unfold predict_anomaly, bind, get_self, lift. rewrite Ht. reflexivity.
Qed.

Lemma predict_anomaly_verdict (v : list Q) (w : world) s m Xs p ps sc scs :
  truthy (is_trained (self w)) = Ok true ->
  scaler (self w) = VScaler s ->
  getitem (models (self w)) "isolation_forest" = Ok (VIForest m) ->
  transform s [v] = Ok Xs ->
  predict m Xs = Ok (p :: ps) ->
  decision_function m Xs = Ok (sc :: scs) ->
  predict_anomaly v w =
  (Ok (VDict [ ("is_anomaly", VBool (p =? -1));
               ("anomaly_score", VFloat sc);
               ("confidence", VFloat (rnd (Qabs sc * 100)));
               ("method", VStr "trained_isolation_forest") ]), w).
Proof.
  intros Ht Hs Hm Hx Hp Hd.
  unfold predict_anomaly, bind, get_self, lift.
  rewrite Ht, Hs. cbn [negb as_scaler]. rewrite Hx, Hm. cbn [as_iforest].
  rewrite Hp. cbn [first]. rewrite Hd. reflexivity.
Qed.

Lemma predict_anomaly_reads_self (v : list Q) (w1 w2 : world) :
  self w1 = self w2 ->
  fst (predict_anomaly v w1) = fst (predict_anomaly v w2).
Proof.
  intros E. unfold predict_anomaly, bind, get_self, lift, ret. rewrite E.
  repeat match goal with
         | |- context [match ?x with _ => _ end] => destruct x; cbn [fst]
         end; reflexivity.
Qed.

Lemma bind_ok_inv {A B} (m : Py A) (k : A -> Py B) (w w' : world) (b : B) :
  bind m k w = (Ok b, w') ->
  exists a w1, m w = (Ok a, w1) /\ k a w1 = (Ok b, w').
Proof.
  unfold bind. destruct (m w) as [[a | e] w1]; [| discriminate].
  intros E. now exists a, w1.
Qed.

Lemma lift_ok_inv {A} (r : result A) (w w' : world) (a : A) :
  lift r w = (Ok a, w') -> r = Ok a /\ w' = w.
Proof. unfold lift. intros E. injection E as E1 E2. now subst. Qed.

Lemma fit_transform_stored_lift (s : Scaler) (X : matrix) (w w' : world)
    (fitted : Scaler * matrix) :
  fit_transform_stored s X w = (Ok fitted, w') ->
  lift (fit_transform s X) w = (Ok fitted, w').
Proof.
  unfold fit_transform_stored, lift.
  destruct (fit_transform s X) as [r | e]; [trivial |].
  unfold bind, set_scaler, raise. discriminate.
Qed.

Ltac bind_inv H :=
  let a := fresh "a" in
  let w1 := fresh "w" in
  let H1 := fresh "Hstep" in
  apply bind_ok_inv in H as (a & w1 & H1 & H);
  repeat match goal with u : unit |- _ => destruct u end.

Ltac pair_inv H := first [injection H as <- <- | injection H as <-].

Ltac lift_inv H :=
  let E := fresh "E" in
  apply lift_ok_inv in H as [E ->].

Lemma store_and_fit_ok (name : string) (est : value) (X : matrix) (w w' : world) :
  store_and_fit name est X w = (Ok tt, w') ->
  exists items fitted,
    models (self w) = VDict items /\
    call_fit est X = Ok fitted /\
    self w' = {| models := VDict (dict_set (dict_set items name est) name fitted);
                 scaler := scaler (self w);
                 is_trained := is_trained (self w) |} /\
    files w' = files w /\ clock w' = clock w /\ stdout w' = stdout w.
Proof.
  unfold store_and_fit. intros Hrun.
  bind_inv Hrun. pair_inv Hstep.
  bind_inv Hrun. lift_inv Hstep.
  destruct (models (self w)) as [ | | | | | | | | items] eqn:Hitems; try discriminate.
  injection E as <-.
  bind_inv Hrun. pair_inv Hstep.
  bind_inv Hrun. pair_inv Hstep.
  bind_inv Hrun. lift_inv Hstep. cbn in E. rewrite dict_get_set_eq in E.
  injection E as <-.
  apply bind_ok_inv in Hrun as (fitted & w1 & Hstep & Hrun). lift_inv Hstep.
  bind_inv Hrun. lift_inv Hstep. cbn in E0. injection E0 as <-.
  injection Hrun as <-.
  exists items, fitted. cbn. auto 10.
Qed.

Lemma _evaluate_models_self (X : matrix) (y : list Z) (w w' : world) (r : result unit) :
  _evaluate_models X y w = (r, w') ->
  self w' = self w /\ files w' = files w /\ clock w' = clock w.
Proof.
  unfold _evaluate_models, bind, print, get_self, lift. cbn.
  repeat match goal with
         | |- context [match ?x with _ => _ end] => destruct x
         end;
    intros E; injection E as _ <-; auto.
Qed.

(** The state [train_models] leaves behind when it returns. *)
Lemma train_models_trained (X : matrix) (y : list Z) (w w' : world) :
  train_models X y w = (Ok tt, w') ->
  exists s m,
    truthy (is_trained (self w')) = Ok true /\
    scaler (self w') = VScaler s /\
    getitem (models (self w')) "isolation_forest" = Ok (VIForest m).
Proof.
  unfold train_models. intros Hrun.
  bind_inv Hrun. pair_inv Hstep.
  apply bind_ok_inv in Hrun as (split & w1 & Hstep & Hrun). lift_inv Hstep.
  destruct split as [[[X_train X_test] y_train] y_test].
  bind_inv Hrun. pair_inv Hstep.
  bind_inv Hrun. lift_inv Hstep.
  apply bind_ok_inv in Hrun as (fitted & w1 & Hstep & Hrun).
  apply fit_transform_stored_lift in Hstep. lift_inv Hstep.
  destruct fitted as [sc X_train_scaled].
  bind_inv Hrun. pair_inv Hstep.
  bind_inv Hrun. pair_inv Hstep.
  bind_inv Hrun. lift_inv Hstep.
  bind_inv Hrun. lift_inv Hstep.
  bind_inv Hrun. pair_inv Hstep.
  bind_inv Hrun. apply store_and_fit_ok in Hstep
    as (items1 & fitted1 & Hitems1 & Hfit1 & Hself1 & _).
  bind_inv Hrun. pair_inv Hstep.
  bind_inv Hrun. apply store_and_fit_ok in Hstep
    as (items2 & fitted2 & Hitems2 & Hfit2 & Hself2 & _).
  bind_inv Hrun. apply _evaluate_models_self in Hstep as (Hself3 & _).
  bind_inv Hrun. pair_inv Hstep.
  injection Hrun as <-.
  cbn in Hfit1. destruct (iforest_fit IsolationForest X_train_scaled) as [m |]; [| discriminate].
  injection Hfit1 as <-.
  cbn in Hitems2. rewrite Hself1 in Hitems2. cbn in Hitems2. injection Hitems2 as <-.
  exists sc, m. cbn. rewrite Hself3, Hself2. cbn.
  repeat split.
  - now rewrite Hself1.
  - rewrite !dict_get_set_ne by discriminate.
    now rewrite dict_get_set_eq.
Qed.

Lemma save_models_ok (filepath : string) (w w' : world) :
  save_models filepath w = (Ok tt, w') ->
  self w' = self w /\
  (files w' !! filepath =
     Some (Regular (dumps (VDict [ ("models", models (self w));
                                   ("scaler", scaler (self w));
                                   ("is_trained", is_trained (self w));
                                   ("trained_at", VStr (clock w)) ]))) /\
   dump_error (VDict [ ("models", models (self w));
                       ("scaler", scaler (self w));
                       ("is_trained", is_trained (self w));
                       ("trained_at", VStr (clock w)) ]) = None).
Proof.
  unfold save_models, bind, get_self, open_wb_dump, print, with_files.
  destruct (files w !! filepath) as [[data | | |] |]; cbn;
    try discriminate;
    (destruct (dump_error _) as [e |] eqn:Hdump; cbn; intros E;
     [discriminate | injection E as <-; cbn; repeat split; apply lookup_insert_eq]).
Qed.

Lemma load_models_pickled (filepath : string) (w : world) (me : trainer) (stamp : string) :
  PickleLaws ->
  files w !! filepath =
    Some (Regular (dumps (VDict [ ("models", models me);
                                  ("scaler", scaler me);
                                  ("is_trained", is_trained me);
                                  ("trained_at", VStr stamp) ]))) /\
  dump_error (VDict [ ("models", models me);
                      ("scaler", scaler me);
                      ("is_trained", is_trained me);
                      ("trained_at", VStr stamp) ]) = None ->
  fst (load_models filepath w) = Ok true /\
  self (snd (load_models filepath w)) = me.
Proof.
  intros Hlaws [Hfile Hdump].
  unfold load_models, try_except, bind, open_rb_load.
  rewrite Hfile, (loads_dumps _ Hdump). cbn. split; [reflexivity | now destruct me].
Qed.

(** C1. On a freshly constructed trainer, whatever the files on disk,
    [predict_anomaly] returns the error record
    [{"error": "Models not trained yet!"}] for every feature vector:
    the record carries no verdict, no score and no confidence, and the
    call changes nothing. *)
Theorem predict_before_train (v : list Q) (fs : gmap string node)
    (now : string) (out : list line) :
  let w := {| self := __init__; files := fs; clock := now; stdout := out |} in
  predict_anomaly v w = (Ok (VDict [("error", VStr "Models not trained yet!")]), w) /\
  exists items : list (string * value),
    fst (predict_anomaly v w) = Ok (VDict items) /\
    dict_get items "error" = Some (VStr "Models not trained yet!") /\
    dict_get items "is_anomaly" = None /\
    dict_get items "anomaly_score" = None /\
    dict_get items "confidence" = None /\
    dict_get items "method" = None.
Proof.
  intros w.
  assert (E : predict_anomaly v w =
              (Ok (VDict [("error", VStr "Models not trained yet!")]), w))
    by (now apply predict_anomaly_untrained).
  split; [exact E |].
  exists [("error", VStr "Models not trained yet!")].
  rewrite E. cbn. auto 10.
Qed.

(** C2. Saving a trained trainer and loading the artifact into a freshly
    constructed trainer succeeds, and [predict_anomaly] then returns for
    every feature vector exactly what it returns on the trainer that
    was saved, provided [pickle.load] gives back what [pickle.dump]
    wrote. *)
Theorem save_load_predict (filepath : string) (w saved : world)
    (now : string) (out : list line) (v : list Q) :
  PickleLaws ->
  truthy (is_trained (self w)) = Ok true ->
  save_models filepath w = (Ok tt, saved) ->
  let fresh := {| self := __init__; files := files saved;
                  clock := now; stdout := out |} in
  fst (load_models filepath fresh) = Ok true /\
  fst (predict_anomaly v (snd (load_models filepath fresh))) =
  fst (predict_anomaly v w).
Proof.
  intros Hlaws _ Hsave fresh.
  apply save_models_ok in Hsave as [_ Hfile].
  destruct (load_models_pickled filepath fresh (self w) (clock w) Hlaws Hfile)
    as [Hok Hself].
  split; [exact Hok |].
  now apply predict_anomaly_reads_self.
Qed.


(** C4. On a trained trainer (the flag is true, the scaler field holds
    a scaler and the models hold an isolation forest) and a feature
    vector the scaler and the forest accept, [predict_anomaly] returns
    the record whose [is_anomaly] is true exactly when the forest's
    decision is -1, whose [anomaly_score] is the forest's score, whose
    [confidence] is the absolute value of the score times 100, and
    whose [method] is the tag ["trained_isolation_forest"].  By
    [train_models_trained] a trainer on which [train_models] returned
    is in that state. *)
Theorem predict_anomaly_record (v : list Q) (w : world)
    (s : Scaler) (m : IForest) (scaled : matrix)
    (decision : Z) (decisions : list Z) (score : Q) (scores : list Q) :
  truthy (is_trained (self w)) = Ok true ->
  scaler (self w) = VScaler s ->
  getitem (models (self w)) "isolation_forest" = Ok (VIForest m) ->
  length v = 8%nat ->
  transform s [v] = Ok scaled ->
  predict m scaled = Ok (decision :: decisions) ->
  decision_function m scaled = Ok (score :: scores) ->
  predict_anomaly v w =
  (Ok (VDict [ ("is_anomaly", VBool (decision =? -1));
               ("anomaly_score", VFloat score);
               ("confidence", VFloat (rnd (Qabs score * 100)));
               ("method", VStr "trained_isolation_forest") ]), w).
Proof.
  intros Ht Hs Hm _ Hx Hp Hd.
  now apply (predict_anomaly_verdict v w s m scaled decision decisions score scores).
Qed.

(** C5. On a non-empty test split for which the forest returns one
    decision per label, [_evaluate_models] turns each decision into a
    label, -1 into 1 and anything else (so 1) into 0, and prints as
    accuracy the number of positions where the turned decision equals
    the ground-truth label, divided by the number of test samples. *)
Theorem evaluate_accuracy (X_test : matrix) (y_test : list Z) (w : world)
    (m : IForest) (decisions : list Z) :
  getitem (models (self w)) "isolation_forest" = Ok (VIForest m) ->
  predict m X_test = Ok decisions ->
  length decisions = length y_test ->
  y_test <> [] ->
  let converted := map (fun p => if p =? -1 then 1 else 0) decisions in
  let agreeing :=
    length (List.filter (fun '(p, l) => p =? l) (combine converted y_test)) in
  let accuracy :=
    fin (rnd (inject_Z (Z.of_nat agreeing) / inject_Z (Z.of_nat (length y_test)))) in
  fst (_evaluate_models X_test y_test w) = Ok tt /\
  stdout (snd (_evaluate_models X_test y_test w)) =
  stdout w ++ [ SayEvaluation;
                SayAccuracy accuracy;
                SayAnomalies (np_sum converted) (np_sum y_test) ].
Proof.
  intros Hm Hp Hlen Hne converted agreeing accuracy.
  unfold _evaluate_models, bind, print, get_self, lift. cbn [self stdout fst snd].
  rewrite Hm. cbn [as_iforest]. rewrite Hp.
  fold converted. unfold np_where_eq. fold converted.
  assert (Hlc : length converted = length y_test)
    by (unfold converted; now rewrite length_map).
  unfold np_equal. rewrite Hlc, Nat.eqb_refl. cbn [fst snd stdout].
  split; [reflexivity |].
  rewrite <- !app_assoc. cbn [app]. do 3 f_equal.
  unfold np_mean.
  pose proof (length_zip_eq converted y_test Hlc) as Hz.
  destruct (zip_eq converted y_test) as [|h hits] eqn:Ezip.
  - destruct y_test; [contradiction | discriminate].
  - rewrite <- Ezip in Hz |- *. rewrite np_sum_hits, Hz. reflexivity.
Qed.


End TrainerFacts.

Lemma mem_pickle_laws : @Engine.PickleLaws stub_sklearn mem_pickle.
Proof. split. reflexivity. Qed.

Lemma run_returns {A W : Type} (run : Engine.result A * W) (a : A) :
  fst run = Engine.Ok a -> run = (Engine.Ok a, snd run).
Proof. destruct run as [r w]. cbn. now intros ->. Qed.

Lemma save_load_predict_witness :
  let saved := snd (Engine.save_models Engine.default_filepath demo_trained) in
  let fresh := {| Engine.self := Engine.__init__;
                  Engine.files := Engine.files saved;
                  Engine.clock := "2024-01-02T00:00:00";
                  Engine.stdout := [] |} in
  fst (Engine.load_models Engine.default_filepath fresh) = Engine.Ok true /\
  fst (Engine.predict_anomaly normal_invoice
         (snd (Engine.load_models Engine.default_filepath fresh))) =
  fst (Engine.predict_anomaly normal_invoice demo_trained).
Proof.
  apply (save_load_predict Engine.default_filepath demo_trained).
  - exact mem_pickle_laws.
  - vm_compute. reflexivity.
  - apply run_returns. vm_compute. reflexivity.
Defined.



Lemma predict_anomaly_record_witness :
  fst (Engine.predict_anomaly normal_invoice demo_trained) =
  Engine.Ok
    (Engine.VDict
       [ ("is_anomaly", Engine.VBool false);
         ("anomaly_score", Engine.VFloat (45000 # 1000));
         ("confidence", Engine.VFloat (rnd (Qabs (45000 # 1000) * 100)));
         ("method", Engine.VStr "trained_isolation_forest") ]).
Proof.
  rewrite (predict_anomaly_record normal_invoice demo_trained
             (Some 1000%Q) (Some 60%Q)
             (stub_scale 1000 [normal_invoice]) 1 [] (45000 # 1000)%Q []);
    reflexivity.
Defined.

Lemma evaluate_accuracy_witness :
  Engine.stdout
    (snd (Engine._evaluate_models [[70000%Q]; [15%Q]; [20%Q]] [1; 0; 1] demo_trained)) =
  Engine.stdout demo_trained ++
  [ Engine.SayEvaluation;
    Engine.SayAccuracy (Engine.fin (rnd (inject_Z 2 / inject_Z 3)));
    Engine.SayAnomalies 1 2 ].
Proof.
  apply (proj2 (evaluate_accuracy [[70000%Q]; [15%Q]; [20%Q]] [1; 0; 1] demo_trained
                  (Some 60%Q) [-1; 1; 1]
                  ltac:(reflexivity) ltac:(reflexivity) ltac:(reflexivity)
                  ltac:(discriminate))).
Defined.


(** * Further properties of the feature synthesizer *)

Section SynthRows.
Import Synth.
Context {G : Type} `{Random G} `{Float64}.

Lemma generate_loop_rows (P : list Q -> Prop) :
  (forall g : G, P (fst (_generate_normal_invoice g))) ->
  (forall g : G, P (fst (_generate_anomalous_invoice g))) ->
  forall n d l g,
    Forall P d -> Forall P (fst (fst (generate_loop n d l g))).
Proof.
  intros Hn Ha. induction n as [|n IH]; intros d l g Hd.
  - exact Hd.
  - rewrite generate_loop_S. apply IH. apply Forall_app. split; [exact Hd |].
    constructor; [| constructor].
    unfold iteration. destruct (Qltb _ _); cbn [fst snd]; [apply Hn | apply Ha].
Qed.

Lemma generate_loop_labels n : forall d l g,
  Forall (fun label => label = 0 \/ label = 1) l ->
  Forall (fun label => label = 0 \/ label = 1) (snd (fst (generate_loop n d l g))).
Proof.
  induction n as [|n IH]; intros d l g Hl.
  - exact Hl.
  - rewrite generate_loop_S. apply IH. apply Forall_app. split; [exact Hl |].
    constructor; [| constructor].
    unfold iteration. destruct (Qltb _ _); cbn [fst snd]; auto.
Qed.

(** The rows both generators build: the amount, two dimensions computed
    from it and five integer draws. *)
Lemma normal_invoice_row (g : G) :
  exists (amount : Q) (g1 : G),
    fst (_generate_normal_invoice g) =
    [ amount; log1p amount; py_mod amount 1000;
      inject_Z (fst (randint 0 6 g1));
      inject_Z (fst (randint 1 28 (snd (randint 0 6 g1))));
      inject_Z (fst (randint 1 12 (snd (randint 1 28 (snd (randint 0 6 g1))))));
      inject_Z (fst (randint 8 15
         (snd (randint 1 12 (snd (randint 1 28 (snd (randint 0 6 g1))))))));
      inject_Z (fst (randint 5 10 (snd (randint 8 15
         (snd (randint 1 12 (snd (randint 1 28 (snd (randint 0 6 g1))))))))))].
Proof.
  unfold _generate_normal_invoice. rewrite !gbind_eq. cbn [gret fst].
  eexists _, _. reflexivity.
Qed.

Lemma anomalous_invoice_row (g : G) :
  exists (amount : Q) (g1 : G),
    fst (_generate_anomalous_invoice g) =
    [ amount; log1p amount; py_mod amount 1000;
      inject_Z (fst (randint 0 6 g1));
      inject_Z (fst (randint 1 28 (snd (randint 0 6 g1))));
      inject_Z (fst (randint 1 12 (snd (randint 1 28 (snd (randint 0 6 g1))))));
      inject_Z (fst (randint 8 15
         (snd (randint 1 12 (snd (randint 1 28 (snd (randint 0 6 g1))))))));
      inject_Z (fst (randint 5 10 (snd (randint 8 15
         (snd (randint 1 12 (snd (randint 1 28 (snd (randint 0 6 g1))))))))))].
Proof.
  unfold _generate_anomalous_invoice. rewrite !gbind_eq. cbn [gret fst].
  eexists _, _. reflexivity.
Qed.

(** X1. Every row of a generated batch, and every invoice either
    generator returns, has exactly eight features. *)
Theorem generated_rows_arity :
  (forall g : G, length (fst (_generate_normal_invoice g)) = 8%nat) /\
  (forall g : G, length (fst (_generate_anomalous_invoice g)) = 8%nat) /\
  (forall (n : Z) (g : G),
      Forall (fun row => length row = 8%nat)
        (fst (fst (generate_training_data n g)))).
Proof.
  assert (Hn : forall g : G, length (fst (_generate_normal_invoice g)) = 8%nat).
  { intros g. destruct (normal_invoice_row g) as (a & g1 & ->). reflexivity. }
  assert (Ha : forall g : G, length (fst (_generate_anomalous_invoice g)) = 8%nat).
  { intros g. destruct (anomalous_invoice_row g) as (a & g1 & ->). reflexivity. }
  repeat split; [exact Hn | exact Ha |].
  intros n g. apply generate_loop_rows; [exact Hn | exact Ha | constructor].
Qed.

(** X2. In every row of a generated batch the second feature is
    [log1p] of the first (the amount) and the third is the amount
    modulo 1000: the two are computed from the amount that is stored,
    after the noise has been added. *)
Theorem generated_rows_derived (n : Z) (g : G) :
  Forall (fun row =>
            nth 1 row 0%Q = log1p (amount_of row) /\
            nth 2 row 0%Q = py_mod (amount_of row) 1000)
    (fst (fst (generate_training_data n g))).
Proof.
  apply generate_loop_rows; [| | constructor].
  - intros g0. destruct (normal_invoice_row g0) as (a & g1 & ->). now split.
  - intros g0. destruct (anomalous_invoice_row g0) as (a & g1 & ->). now split.
Qed.

(** X3. Every label of a generated batch is 0 or 1. *)
Theorem generated_labels_binary (n : Z) (g : G) :
  Forall (fun label => label = 0 \/ label = 1)
    (snd (fst (generate_training_data n g))).
Proof. apply generate_loop_labels. constructor. Qed.

(** X4. Generating [n + k] samples from a state gives the batch of [n]
    samples from that state followed by [k] more: the first [n] rows
    and labels are those of the shorter run. *)
Theorem generate_training_data_prefix (n k : nat) (g : G) :
  firstn n (fst (fst (generate_training_data (Z.of_nat (n + k)) g))) =
    fst (fst (generate_training_data (Z.of_nat n) g)) /\
  firstn n (snd (fst (generate_training_data (Z.of_nat (n + k)) g))) =
    snd (fst (generate_training_data (Z.of_nat n) g)).
Proof.
  unfold generate_training_data. rewrite !Nat2Z.id, generate_loop_add.
  destruct (generate_loop_extends n [] [] g) as (d1 & l1 & E1 & Hd1 & Hl1 & _).
  rewrite E1. cbn [fst snd app].
  destruct (generate_loop_extends k d1 l1 (snd (generate_loop n [] [] g)))
    as (d2 & l2 & E2 & _).
  rewrite E2. cbn [fst snd].
  split.
  - rewrite <- Hd1 at 1. rewrite firstn_app, Nat.sub_diag, firstn_all.
    cbn [firstn]. apply app_nil_r.
  - rewrite <- Hl1 at 1. rewrite firstn_app, Nat.sub_diag, firstn_all.
    cbn [firstn]. apply app_nil_r.
Qed.

End SynthRows.

Section SynthRanges.
Import Synth.
Context {G : Type} `{Random G} `{Float64} {RL : RandomLaws G} {FL : Float64Laws}.

Lemma rnd_proper (x y : Q) : (x == y)%Q -> (rnd x == rnd y)%Q.
Proof.
  intros E. apply Qle_antisym; apply rnd_mono; rewrite E; apply Qle_refl.
Qed.

Lemma randint_range (a b : Z) (g : G) :
  a <= b -> a <= fst (randint a b g) <= b.
Proof.
  intros Hab. unfold randint. rewrite gbind_eq. cbn [gret fst].
  pose proof (randbelow_range (b - a + 1) g ltac:(lia)). lia.
Qed.

Lemma choice_In {A} (x : A) (xs : list A) (g : G) :
  In (fst (choice x xs g)) (x :: xs).
Proof.
  unfold choice. rewrite gbind_eq. cbn [gret fst].
  pose proof (randbelow_range (Z.of_nat (length (x :: xs))) g) as Hr.
  apply nth_In.
  assert (0 < Z.of_nat (length (x :: xs))) by (cbn [length]; lia).
  specialize (Hr ltac:(assumption)). lia.
Qed.

Lemma py_mod_range (x : Q) : (0 <= py_mod x 1000 <= 1000)%Q.
Proof.
  unfold py_mod.
  apply (rnd_between 0 1000); [lia | lia |].
  pose proof (Qfloor_le (x / 1000)) as Hlo.
  pose proof (Qlt_floor (x / 1000)) as Hhi.
  rewrite inject_Z_plus in Hhi.
  set (f := inject_Z (Qfloor (x / 1000))) in *.
  assert (E : (x == x / 1000 * 1000)%Q) by (field).
  change (inject_Z 0) with 0%Q. change (inject_Z 1000) with 1000%Q.
  change (inject_Z 1) with 1%Q in Hhi.
  split.
  - assert (1000 * f <= x / 1000 * 1000)%Q by lra. lra.
  - assert (x / 1000 * 1000 <= 1000 * f + 1000)%Q by lra. lra.
Qed.

Lemma anomalous_amount_by_kind (g : G) :
  let kind := fst (choice round_amount [high_amount; weekend; suspicious_pattern] g) in
  let g1 := snd (choice round_amount [high_amount; weekend; suspicious_pattern] g) in
  amount_of (fst (_generate_anomalous_invoice g)) =
  match kind with
  | round_amount =>
      inject_Z (fst (choice 10000 [15000; 20000; 25000; 50000; 75000; 100000] g1))
  | high_amount => fst (uniform 100000 500000 g1)
  | weekend => fst (uniform 10000 30000 g1)
  | suspicious_pattern => fst (uniform 8000 40000 g1)
  end.
Proof.
  intros kind g1. unfold _generate_anomalous_invoice. rewrite gbind_eq.
  fold kind g1. destruct kind; rewrite !gbind_eq; reflexivity.
Qed.

Lemma round_amount_values (a : Z) :
  In a [10000; 15000; 20000; 25000; 50000; 75000; 100000] ->
  10000 <= a <= 100000 /\ (py_mod (inject_Z a) 1000 == 0)%Q.
Proof.
  intros Hin. cbn [In] in Hin.
  assert (Hz : forall x : Q, (x == 0)%Q -> (rnd x == 0)%Q).
  { intros x E. rewrite (rnd_proper x 0 E). apply (rnd_int 0). lia. }
  unfold py_mod.
  repeat (destruct Hin as [<- | Hin];
          [split; [lia | apply Hz; vm_compute; reflexivity] |]).
  contradiction.
Qed.

Lemma anomalous_invoice_amount (g : G) :
  (8000 <= amount_of (fst (_generate_anomalous_invoice g)) <= 500000)%Q.
Proof.
  rewrite anomalous_amount_by_kind.
  destruct (fst (choice round_amount [high_amount; weekend; suspicious_pattern] g)).
  - pose proof (choice_In 10000 [15000; 20000; 25000; 50000; 75000; 100000]
                  (snd (choice round_amount [high_amount; weekend; suspicious_pattern] g)))
      as Hin.
    apply round_amount_values in Hin as [[Hlo Hhi] _].
    split.
    + apply Qle_trans with (inject_Z 10000); [easy |].
      unfold Qle; cbn; lia.
    + apply Qle_trans with (inject_Z 100000); [| easy].
      unfold Qle; cbn; lia.
  - pose proof (uniform_range 100000 500000
                  (snd (choice round_amount [high_amount; weekend; suspicious_pattern] g))
                  ltac:(lia) ltac:(lia) ltac:(lia) ltac:(lia)) as [Hlo Hhi].
    change (inject_Z 100000) with 100000%Q in Hlo.
    change (inject_Z 500000) with 500000%Q in Hhi. split; lra.
  - pose proof (uniform_range 10000 30000
                  (snd (choice round_amount [high_amount; weekend; suspicious_pattern] g))
                  ltac:(lia) ltac:(lia) ltac:(lia) ltac:(lia)) as [Hlo Hhi].
    change (inject_Z 10000) with 10000%Q in Hlo.
    change (inject_Z 30000) with 30000%Q in Hhi. split; lra.
  - pose proof (uniform_range 8000 40000
                  (snd (choice round_amount [high_amount; weekend; suspicious_pattern] g))
                  ltac:(lia) ltac:(lia) ltac:(lia) ltac:(lia)) as [Hlo Hhi].
    change (inject_Z 8000) with 8000%Q in Hlo.
    change (inject_Z 40000) with 40000%Q in Hhi. split; lra.
Qed.

(** X5. In every row of a generated batch the five calendar and
    invoice-number features are integers in their ranges: day of week
    0..6, day of month 1..28, month 1..12, number length 8..15 and
    digit count 5..10. *)
Theorem generated_rows_integer_ranges (n : Z) (g : G) :
  Forall (fun row =>
            exists dow dom mon len dig : Z,
              nth 3 row 0%Q = inject_Z dow /\ 0 <= dow <= 6 /\
              nth 4 row 0%Q = inject_Z dom /\ 1 <= dom <= 28 /\
              nth 5 row 0%Q = inject_Z mon /\ 1 <= mon <= 12 /\
              nth 6 row 0%Q = inject_Z len /\ 8 <= len <= 15 /\
              nth 7 row 0%Q = inject_Z dig /\ 5 <= dig <= 10)
    (fst (fst (generate_training_data n g))).
Proof.
  apply generate_loop_rows; [| | constructor].
  - intros g0. destruct (normal_invoice_row g0) as (a & g1 & ->).
    eexists _, _, _, _, _. cbn [nth].
    repeat split; try reflexivity; apply randint_range; lia.
  - intros g0. destruct (anomalous_invoice_row g0) as (a & g1 & ->).
    eexists _, _, _, _, _. cbn [nth].
    repeat split; try reflexivity; apply randint_range; lia.
Qed.

(** X6. An anomalous sample of the round-amount archetype has one of
    the seven listed amounts, and its remainder feature (amount modulo
    1000) is zero. *)
Theorem round_amount_archetype (g : G) :
  fst (choice round_amount [high_amount; weekend; suspicious_pattern] g) = round_amount ->
  (exists a : Z,
      In a [10000; 15000; 20000; 25000; 50000; 75000; 100000] /\
      amount_of (fst (_generate_anomalous_invoice g)) = inject_Z a) /\
  (nth 2 (fst (_generate_anomalous_invoice g)) 0 == 0)%Q.
Proof.
  intros Hk.
  pose proof (anomalous_amount_by_kind g) as Ha. cbv zeta in Ha. rewrite Hk in Ha.
  pose proof (choice_In 10000 [15000; 20000; 25000; 50000; 75000; 100000]
                (snd (choice round_amount [high_amount; weekend; suspicious_pattern] g)))
    as Hin.
  split.
  - eexists. split; [exact Hin | exact Ha].
  - destruct (anomalous_invoice_row g) as (a & g1 & E).
    rewrite E in Ha |- *. cbn [amount_of nth] in Ha |- *. rewrite Ha.
    now apply round_amount_values.
Qed.

(** X7. The weekend archetype draws its amount from 10,000 to 30,000
    and the suspicious-pattern archetype from 8,000 to 40,000: both
    ranges lie inside the band of normal invoices, 4,500 to 50,500. *)
Theorem overlapping_archetype_amounts (g : G) :
  let kind := fst (choice round_amount [high_amount; weekend; suspicious_pattern] g) in
  let amount := amount_of (fst (_generate_anomalous_invoice g)) in
  (kind = weekend -> (10000 <= amount <= 30000)%Q) /\
  (kind = suspicious_pattern -> (8000 <= amount <= 40000)%Q) /\
  (kind = weekend \/ kind = suspicious_pattern -> (4500 <= amount <= 50500)%Q).
Proof.
  intros kind amount.
  pose proof (anomalous_amount_by_kind g) as Ha. cbv zeta in Ha.
  fold kind amount in Ha.
  assert (Hw : kind = weekend -> (10000 <= amount <= 30000)%Q).
  { intros Hk. rewrite Hk in Ha. rewrite Ha.
    apply (uniform_range 10000 30000); lia. }
  assert (Hs : kind = suspicious_pattern -> (8000 <= amount <= 40000)%Q).
  { intros Hk. rewrite Hk in Ha. rewrite Ha.
    apply (uniform_range 8000 40000); lia. }
  split; [exact Hw | split; [exact Hs |]].
  intros [Hk | Hk]; [destruct (Hw Hk) | destruct (Hs Hk)]; split; lra.
Qed.

(** X8. Every amount in a generated batch lies between 4,500 and
    500,000; in particular it is positive. *)
Theorem generated_amounts_range (n : Z) (g : G) :
  Forall (fun row => (4500 <= amount_of row <= 500000)%Q)
    (fst (fst (generate_training_data n g))).
Proof.
  apply generate_loop_rows; [| | constructor].
  - intros g0. destruct (normal_invoice_amount g0). split; lra.
  - intros g0. destruct (anomalous_invoice_amount g0). split; lra.
Qed.

(** X9. The remainder feature of every row of a generated batch lies
    between 0 and 1000. *)
Theorem generated_remainder_range (n : Z) (g : G) :
  Forall (fun row => (0 <= nth 2 row 0 <= 1000)%Q)
    (fst (fst (generate_training_data n g))).
Proof.
  apply generate_loop_rows; [| | constructor].
  - intros g0. destruct (normal_invoice_row g0) as (a & g1 & ->).
    cbn [nth]. apply py_mod_range.
  - intros g0. destruct (anomalous_invoice_row g0) as (a & g1 & ->).
    cbn [nth]. apply py_mod_range.
Qed.

End SynthRanges.

(** * Further properties of the trainer *)

Section TrainerRuns.
Import Engine.
Context `{Pickle} `{Float64}.

Lemma predict_anomaly_world (v : list Q) (w : world) :
  snd (predict_anomaly v w) = w.
Proof.
  unfold predict_anomaly, bind, get_self, lift, ret.
  repeat match goal with
         | |- context [match ?x with _ => _ end] => destruct x; cbn [snd]
         end; reflexivity.
Qed.

(** X10. [predict_anomaly] only reads: whatever it returns or raises,
    the trainer, the files and the printed lines are as before. *)
Theorem predict_anomaly_read_only (v : list Q) (w : world) :
  snd (predict_anomaly v w) = w.
Proof.
  unfold predict_anomaly, bind, get_self, lift, ret.
  repeat match goal with
         | |- context [match ?x with _ => _ end] => destruct x; cbn [snd]
         end; reflexivity.
Qed.

(** X11. A returning [predict_anomaly] gives one of two records: the
    error record, exactly when the flag is false, or a verdict with the
    four keys [is_anomaly], [anomaly_score], [confidence] and [method],
    exactly when the flag is true. *)
Theorem predict_anomaly_two_records (v : list Q) (w : world) (r : value) :
  fst (predict_anomaly v w) = Ok r ->
  (truthy (is_trained (self w)) = Ok false /\
   r = VDict [("error", VStr "Models not trained yet!")]) \/
  (truthy (is_trained (self w)) = Ok true /\
   exists (decision : Z) (score : Q),
     r = VDict [ ("is_anomaly", VBool (decision =? -1));
                 ("anomaly_score", VFloat score);
                 ("confidence", VFloat (rnd (Qabs score * 100)));
                 ("method", VStr "trained_isolation_forest") ]).
Proof.
  unfold predict_anomaly, bind, get_self, lift, ret.
  destruct (truthy (is_trained (self w))) as [[|] |]; cbn [negb fst].
  - repeat match goal with
           | |- context [match ?x with _ => _ end] => destruct x; cbn [fst]
           end;
      intros E; try discriminate E; injection E as <-.
    right. split; [reflexivity |]. now eexists _, _.
  - intros E. injection E as <-. left. now split.
  - discriminate.
Qed.

(** X12. [_evaluate_models] only prints: whether it returns or raises,
    the trainer's fields and the files are unchanged, and the lines
    printed before are still there, in front of the new ones. *)
Theorem evaluate_models_only_prints (X_test : matrix) (y_test : list Z) (w : world) :
  self (snd (_evaluate_models X_test y_test w)) = self w /\
  files (snd (_evaluate_models X_test y_test w)) = files w /\
  exists printed : list line,
    stdout (snd (_evaluate_models X_test y_test w)) = stdout w ++ printed.
Proof.
  unfold _evaluate_models, bind, print, get_self, lift.
  cbn [self files stdout clock fst snd].
  repeat match goal with
         | |- context [match ?x with _ => _ end] => destruct x
         end;
    cbn [self files stdout snd]; repeat split;
    rewrite <- ?app_assoc; eexists; reflexivity.
Qed.

(** X13. On a trainer whose models hold no isolation forest, as a
    freshly constructed one, [_evaluate_models] prints its heading and
    raises [KeyError('isolation_forest')]. *)
Theorem evaluate_models_without_forest (X_test : matrix) (y_test : list Z)
    (w : world) (items : list (string * value)) :
  models (self w) = VDict items ->
  dict_get items "isolation_forest" = None ->
  _evaluate_models X_test y_test w =
  (Raise (KeyError "isolation_forest"),
   {| self := self w; files := files w; clock := clock w;
      stdout := stdout w ++ [SayEvaluation] |}).
Proof.
  intros Hm Hnone. unfold _evaluate_models, bind, print, get_self, lift.
  cbn [self]. rewrite Hm. cbn [getitem]. rewrite Hnone. reflexivity.
Qed.

End TrainerRuns.

Section TrainerMetrics.
Import Engine.
Context `{Pickle} `{Float64} {FL : Float64Laws}.

Lemma np_sum_bools_range (a : list bool) :
  0 <= np_sum (map bool_to_Z a) <= Z.of_nat (length a).
Proof.
  induction a as [|b a IH].
  - cbn. lia.
  - cbn [map]. rewrite np_sum_cons. cbn [length]. destruct b; cbn [bool_to_Z]; lia.
Qed.

Lemma np_mean_range (a : list bool) :
  a <> [] -> exists q : Q, np_mean a = fin q /\ (0 <= q <= 1)%Q.
Proof.
  intros Hne. destruct a as [|b a]; [contradiction |].
  unfold np_mean. eexists. split; [reflexivity |].
  pose proof (np_sum_bools_range (b :: a)) as [Hlo Hhi].
  set (s := np_sum (map bool_to_Z (b :: a))) in *.
  set (n := Z.of_nat (length (b :: a))) in *.
  assert (Hn : 0 < n) by (unfold n; cbn [length]; lia).
  clearbody s n.
  assert (Hnq : (0 < inject_Z n)%Q) by (unfold Qlt; cbn; lia).
  apply (rnd_between 0 1); [lia | lia |].
  change (inject_Z 0) with 0%Q. change (inject_Z 1) with 1%Q. split.
  - apply Qle_shift_div_l; [exact Hnq |]. rewrite Qmult_0_l.
    unfold Qle; cbn; lia.
  - apply Qle_shift_div_r; [exact Hnq |]. rewrite Qmult_1_l.
    unfold Qle; cbn; lia.
Qed.

Lemma np_sum_where_count (a : list Z) (c : Z) :
  np_sum (np_where_eq a c 1 0) = Z.of_nat (count_occ Z.eq_dec a c).
Proof.
  unfold np_where_eq. induction a as [|p a IH].
  - reflexivity.
  - cbn [map count_occ]. rewrite np_sum_cons, IH.
    destruct (Z.eq_dec p c) as [-> | Hne].
    + rewrite Z.eqb_refl. lia.
    + apply Z.eqb_neq in Hne. rewrite Hne. lia.
Qed.

(** X14. When the forest returns one decision per test label and the
    split is not empty, [_evaluate_models] returns after printing three
    lines: its heading, an accuracy between 0 and 1, and the number of
    decisions equal to -1 beside the sum of the labels. *)
Theorem evaluate_models_metrics (X_test : matrix) (y_test : list Z) (w : world)
    (m : IForest) (decisions : list Z) :
  getitem (models (self w)) "isolation_forest" = Ok (VIForest m) ->
  predict m X_test = Ok decisions ->
  length decisions = length y_test ->
  y_test <> [] ->
  exists accuracy : Q,
    (0 <= accuracy <= 1)%Q /\
    _evaluate_models X_test y_test w =
    (Ok tt,
     {| self := self w; files := files w; clock := clock w;
        stdout := stdout w ++
                  [ SayEvaluation;
                    SayAccuracy (fin accuracy);
                    SayAnomalies (Z.of_nat (count_occ Z.eq_dec decisions (-1)))
                                 (np_sum y_test) ] |}).
Proof.
  intros Hm Hp Hlen Hne.
  assert (Hlc : length (np_where_eq decisions (-1) 1 0) = length y_test)
    by (unfold np_where_eq; now rewrite length_map).
  destruct (np_mean_range (zip_eq (np_where_eq decisions (-1) 1 0) y_test))
    as (q & Hq & Hrange).
  { intros Hnil. pose proof (length_zip_eq _ _ Hlc) as Hz.
    rewrite Hnil in Hz. destruct y_test; [contradiction | discriminate]. }
  exists q. split; [exact Hrange |].
  unfold _evaluate_models, bind, print, get_self, lift. cbn [self stdout files clock].
  rewrite Hm. cbn [as_iforest]. rewrite Hp.
  unfold np_equal. rewrite Hlc, Nat.eqb_refl. cbn [self stdout files clock].
  rewrite Hq, np_sum_where_count, <- !app_assoc. reflexivity.
Qed.

End TrainerMetrics.

Section TrainerTraining.
Import Engine.
Context `{Pickle} `{Float64}.

Ltac step_bind H :=
  let a := fresh "a" in
  let w1 := fresh "w" in
  let H1 := fresh "Hstep" in
  apply bind_ok_inv in H as (a & w1 & H1 & H);
  repeat match goal with u : unit |- _ => destruct u end.

Ltac step_pair H := first [injection H as <- <- | injection H as <-].

Ltac step_lift H :=
  let E := fresh "E" in
  apply lift_ok_inv in H as [E ->].

(** Everything a returning [train_models] has done. *)
Lemma train_models_ok_inv (X : matrix) (y : list Z) (w w' : world) :
  train_models X y w = (Ok tt, w') ->
  exists X_train X_test y_train y_test s0 sc X_train_scaled X_test_scaled m c items,
    train_test_split X y = Ok (X_train, X_test, y_train, y_test) /\
    scaler (self w) = VScaler s0 /\
    fit_transform s0 X_train = Ok (sc, X_train_scaled) /\
    transform sc X_test = Ok X_test_scaled /\
    models (self w) = VDict items /\
    iforest_fit IsolationForest X_train_scaled = Ok m /\
    dbscan_fit DBSCAN X_train_scaled = Ok c /\
    self w' =
      {| models :=
           VDict (dict_set
                    (dict_set
                       (dict_set
                          (dict_set items "isolation_forest" (VIForest IsolationForest))
                          "isolation_forest" (VIForest m))
                       "dbscan" (VDbscan DBSCAN))
                    "dbscan" (VDbscan c));
         scaler := VScaler sc;
         is_trained := VBool true |} /\
    files w' = files w.
Proof.
  unfold train_models. intros Hrun.
  step_bind Hrun. step_pair Hstep.
  apply bind_ok_inv in Hrun as (split & w1 & Hstep & Hrun). step_lift Hstep.
  destruct split as [[[X_train X_test] y_train] y_test].
  step_bind Hrun. step_pair Hstep.
  apply bind_ok_inv in Hrun as (s0 & w1 & Hstep & Hrun). step_lift Hstep.
  apply bind_ok_inv in Hrun as (fitted & w1 & Hstep & Hrun).
  apply fit_transform_stored_lift in Hstep. step_lift Hstep.
  destruct fitted as [sc X_train_scaled].
  step_bind Hrun. step_pair Hstep.
  step_bind Hrun. step_pair Hstep.
  step_bind Hrun. step_lift Hstep.
  apply bind_ok_inv in Hrun as (X_test_scaled & w1 & Hstep & Hrun). step_lift Hstep.
  step_bind Hrun. step_pair Hstep.
  step_bind Hrun. apply store_and_fit_ok in Hstep
    as (items1 & fitted1 & Hitems1 & Hfit1 & Hself1 & Hfiles1 & _).
  step_bind Hrun. step_pair Hstep.
  step_bind Hrun. apply store_and_fit_ok in Hstep
    as (items2 & fitted2 & Hitems2 & Hfit2 & Hself2 & Hfiles2 & _).
  step_bind Hrun. apply _evaluate_models_self in Hstep as (Hself3 & Hfiles3 & _).
  step_bind Hrun. step_pair Hstep.
  injection Hrun as <-.
  cbn in Hfit1. destruct (iforest_fit IsolationForest X_train_scaled) as [m |] eqn:Hm;
    [| discriminate].
  injection Hfit1 as <-.
  cbn in Hfit2. destruct (dbscan_fit DBSCAN X_train_scaled) as [c |] eqn:Hc;
    [| discriminate].
  injection Hfit2 as <-.
  cbn in Hitems2. rewrite Hself1 in Hitems2. cbn in Hitems2. injection Hitems2 as <-.
  cbn in Hitems1, Hfiles1, Hfiles2, E2. injection E2 as <-.
  destruct (scaler (self w)) as [ | | | | | s | | | ] eqn:Hsc; try discriminate.
  cbn in E0. injection E0 as ->.
  exists X_train, X_test, y_train, y_test, s0, sc, X_train_scaled, X_test_scaled, m, c, items1.
  cbn. rewrite Hself3, Hself2, Hfiles3, Hfiles2, Hfiles1. cbn. rewrite Hself1. cbn.
  repeat split; assumption.
Qed.

(** X15. When [train_models] returns, the scaler was fitted on the
    training part of the split only, the isolation forest and DBSCAN
    were each fitted, from a new estimator, on the scaled training
    part; the trainer holds these three fitted objects, its flag is
    [True], and no file was touched. *)
Theorem train_models_data_flow (X : matrix) (y : list Z) (w w' : world) :
  train_models X y w = (Ok tt, w') ->
  exists X_train X_test y_train y_test s0 sc X_train_scaled m c,
    train_test_split X y = Ok (X_train, X_test, y_train, y_test) /\
    scaler (self w) = VScaler s0 /\
    fit_transform s0 X_train = Ok (sc, X_train_scaled) /\
    iforest_fit IsolationForest X_train_scaled = Ok m /\
    dbscan_fit DBSCAN X_train_scaled = Ok c /\
    scaler (self w') = VScaler sc /\
    getitem (models (self w')) "isolation_forest" = Ok (VIForest m) /\
    getitem (models (self w')) "dbscan" = Ok (VDbscan c) /\
    is_trained (self w') = VBool true /\
    files w' = files w.
Proof.
  intros Hrun. apply train_models_ok_inv in Hrun
    as (X_train & X_test & y_train & y_test & s0 & sc & Xs & Xt & m & c & items
        & Hsplit & Hs0 & Hfit & _ & _ & Hm & Hc & Hself & Hfiles).
  exists X_train, X_test, y_train, y_test, s0, sc, Xs, m, c.
  rewrite Hself. cbn [models scaler is_trained getitem].
  rewrite dict_get_set_eq.
  rewrite !dict_get_set_ne by discriminate. rewrite dict_get_set_eq.
  repeat split; assumption.
Qed.

(** X16. [train_models] assigns the keys ['isolation_forest'] and
    ['dbscan'] only: an entry of [self.models] under any other key is
    still there, unchanged, when training returns. *)
Theorem train_models_keeps_other_models (X : matrix) (y : list Z) (w w' : world)
    (key : string) :
  train_models X y w = (Ok tt, w') ->
  key <> "isolation_forest" -> key <> "dbscan" ->
  getitem (models (self w')) key = getitem (models (self w)) key.
Proof.
  intros Hrun Hk1 Hk2. apply train_models_ok_inv in Hrun
    as (X_train & X_test & y_train & y_test & s0 & sc & Xs & Xt & m & c & items
        & _ & _ & _ & _ & Hitems & _ & _ & Hself & _).
  rewrite Hself, Hitems. cbn [models getitem].
  now rewrite !dict_get_set_ne by congruence.
Qed.

(** X17. Training a freshly constructed trainer, or one trained before,
    leaves exactly two models, the fitted forest and the fitted DBSCAN
    in this order: training again replaces both and adds nothing. *)
Theorem train_models_two_models (X : matrix) (y : list Z) (w w' : world) :
  train_models X y w = (Ok tt, w') ->
  models (self w) = VDict [] \/
  (exists a b, models (self w) = VDict [("isolation_forest", a); ("dbscan", b)]) ->
  exists m c,
    models (self w') = VDict [("isolation_forest", VIForest m); ("dbscan", VDbscan c)].
Proof.
  intros Hrun Hshape. apply train_models_ok_inv in Hrun
    as (X_train & X_test & y_train & y_test & s0 & sc & Xs & Xt & m & c & items
        & _ & _ & _ & _ & Hitems & _ & _ & Hself & _).
  exists m, c. rewrite Hself. cbn [models].
  destruct Hshape as [Hfresh | (a & b & Htrained)].
  - rewrite Hfresh in Hitems. injection Hitems as <-. reflexivity.
  - rewrite Htrained in Hitems. injection Hitems as <-. reflexivity.
Qed.

(** X18. When [train_test_split] raises, as on a training set it
    rejects, [train_models] raises the same exception having only
    printed its first line: no field of the trainer has changed. *)
Theorem train_models_split_raises (X : matrix) (y : list Z) (w : world) (e : exn) :
  train_test_split X y = Raise e ->
  train_models X y w =
  (Raise e,
   {| self := self w; files := files w; clock := clock w;
      stdout := stdout w ++ [SayTraining] |}).
Proof.
  intros Hsplit. unfold train_models, bind, print, lift. now rewrite Hsplit.
Qed.

(** X19. Training is not atomic.  When the split and the scaler succeed
    and fitting the forest raises, [train_models] raises that
    exception with the trainer changed: the scaler is the newly fitted
    one and ['isolation_forest'] holds the new, unfitted forest, while
    [is_trained] is what it was, so a trainer trained before still
    claims to be trained. *)
Theorem train_models_forest_raises (X : matrix) (y : list Z) (w : world)
    (X_train X_test : matrix) (y_train y_test : list Z) (s0 sc : Scaler)
    (X_train_scaled X_test_scaled : matrix) (items : list (string * value)) (e : exn) :
  train_test_split X y = Ok (X_train, X_test, y_train, y_test) ->
  scaler (self w) = VScaler s0 ->
  fit_transform s0 X_train = Ok (sc, X_train_scaled) ->
  transform sc X_test = Ok X_test_scaled ->
  models (self w) = VDict items ->
  iforest_fit IsolationForest X_train_scaled = Raise e ->
  fst (train_models X y w) = Raise e /\
  self (snd (train_models X y w)) =
    {| models := VDict (dict_set items "isolation_forest" (VIForest IsolationForest));
       scaler := VScaler sc;
       is_trained := is_trained (self w) |}.
Proof.
  intros Hsplit Hs0 Hfit Htr Hitems Hraise.
  unfold train_models, store_and_fit, fit_transform_stored,
    bind, print, lift, get_self, set_scaler, set_models.
  rewrite Hsplit. cbn [self scaler models is_trained files clock stdout].
  rewrite Hs0. cbn [as_scaler]. rewrite Hfit. unfold ret.
  cbn [as_scaler self scaler]. rewrite Htr.
  cbn [self scaler models is_trained files clock stdout]. rewrite Hitems.
  cbn [setitem getitem self scaler models is_trained files clock stdout].
  rewrite dict_get_set_eq. cbn [call_fit]. rewrite Hraise. split; reflexivity.
Qed.

(** X20. However [train_models] ends, it writes no file; and when it
    raises, [is_trained] keeps the value it had. *)
Theorem train_models_raise_keeps_flag (X : matrix) (y : list Z) (w : world) :
  files (snd (train_models X y w)) = files w /\
  forall e : exn,
    fst (train_models X y w) = Raise e ->
    is_trained (self (snd (train_models X y w))) = is_trained (self w).
Proof.
  unfold train_models, store_and_fit, _evaluate_models, fit_transform_stored,
    bind, print, lift, get_self, set_scaler, set_models, set_is_trained, ret, raise.
  repeat (cbn [self scaler models is_trained files clock stdout fst snd];
          match goal with
          | |- context [match ?x with _ => _ end] =>
              lazymatch x with
              | context [match _ with _ => _ end] => fail
              | _ => destruct x
              end
          end);
    cbn [self scaler models is_trained files clock stdout fst snd];
    (split; [reflexivity | intros e0 He; first [discriminate He | reflexivity]]).
Qed.

End TrainerTraining.

Section TrainerFiles.
Import Engine.
Context `{Pickle} `{Float64}.

(** X21. A returning [save_models] has written the one path it was
    given: every other path holds what it held, the trainer's fields
    are unchanged, and one line was printed. *)
Theorem save_models_writes_one_path (filepath : string) (w w' : world) :
  save_models filepath w = (Ok tt, w') ->
  self w' = self w /\
  stdout w' = stdout w ++ [SaySaved filepath] /\
  forall other : string, other <> filepath -> files w' !! other = files w !! other.
Proof.
  unfold save_models, bind, get_self, open_wb_dump, print, with_files.
  destruct (files w !! filepath) as [[data | | |] |]; cbn;
    try discriminate;
    (destruct (dump_error _) as [e |]; cbn; intros E;
     [discriminate | injection E as <-; cbn;
                     (repeat split; [intros other Hne; now apply lookup_insert_ne])]).
Qed.


(** X23. Loading what [save_models] wrote puts the saved [models],
    [scaler] and [is_trained] into the loading trainer, whatever that
    trainer held before; the time stamp in the artifact is not read
    back. *)
Theorem save_then_load_restores_fields (filepath : string) (w saved : world)
    (loader : trainer) (now : string) (out : list line) :
  PickleLaws ->
  save_models filepath w = (Ok tt, saved) ->
  load_models filepath
    {| self := loader; files := files saved; clock := now; stdout := out |} =
  (Ok true,
   {| self := self w; files := files saved; clock := now;
      stdout := out ++ [SayLoaded filepath] |}).
Proof.
  intros Hlaws Hsave. apply save_models_ok in Hsave as [_ [Hfile Hdump]].
  unfold load_models, try_except, bind, open_rb_load. cbn [files].
  rewrite Hfile, (loads_dumps _ Hdump). cbn. now destruct (self w).
Qed.

(** X24. Loading is not atomic.  When the artifact unpickles to a dict
    that has ['models'] and lacks ['scaler'], [load_models] raises
    [KeyError('scaler')] after it has replaced [self.models]; the
    scaler and the flag are the old ones. *)
Theorem load_models_partial (filepath : string) (w : world) (data : blob)
    (items : list (string * value)) (loaded : value) :
  files w !! filepath = Some (Regular data) ->
  loads data = Some (VDict items) ->
  dict_get items "models" = Some loaded ->
  dict_get items "scaler" = None ->
  load_models filepath w =
  (Raise (KeyError "scaler"),
   {| self := {| models := loaded; scaler := scaler (self w);
                 is_trained := is_trained (self w) |};
      files := files w; clock := clock w; stdout := stdout w |}).
Proof.
  intros Hfile Hloads Hmodels Hscaler.
  unfold load_models, try_except, bind, open_rb_load, lift, set_models.
  rewrite Hfile, Hloads. cbn [getitem]. rewrite Hmodels.
  cbn [getitem]. rewrite Hscaler. reflexivity.
Qed.



(** X27. [predict_anomaly] trusts the flag alone: when [is_trained] is
    true and the scaler accepts the vector but the models hold no
    isolation forest, it raises [KeyError('isolation_forest')] instead
    of returning the error record. *)
Theorem predict_anomaly_without_forest (v : list Q) (w : world) (s : Scaler)
    (scaled : matrix) (items : list (string * value)) :
  truthy (is_trained (self w)) = Ok true ->
  scaler (self w) = VScaler s ->
  transform s [v] = Ok scaled ->
  models (self w) = VDict items ->
  dict_get items "isolation_forest" = None ->
  predict_anomaly v w = (Raise (KeyError "isolation_forest"), w).
Proof.
  intros Hflag Hs Hx Hm Hnone. unfold predict_anomaly, bind, get_self, lift.
  rewrite Hflag, Hs. cbn [negb as_scaler]. rewrite Hx, Hm.
  cbn [getitem]. now rewrite Hnone.
Qed.

End TrainerFiles.

Section TrainerConfidence.
Import Engine.
Context `{Pickle} `{Float64} {FL : Float64Laws}.

(** X28. The confidence of a verdict is never negative, and it is the
    same for a score and for its opposite: it does not tell an
    anomalous score from a normal one. *)
Theorem confidence_nonnegative (v : list Q) (w : world) (items : list (string * value))
    (score : Q) :
  fst (predict_anomaly v w) = Ok (VDict items) ->
  dict_get items "anomaly_score" = Some (VFloat score) ->
  dict_get items "confidence" = Some (VFloat (rnd (Qabs score * 100))) /\
  (0 <= rnd (Qabs score * 100))%Q /\
  rnd (Qabs (- score) * 100) = rnd (Qabs score * 100).
Proof.
  intros Hrun Hscore. split; [| split].
  - revert Hrun. unfold predict_anomaly, bind, get_self, lift, ret.
    repeat match goal with
           | |- context [match ?x with _ => _ end] => destruct x; cbn [fst]
           end;
      intros E; try discriminate E; injection E as <-;
      cbn in Hscore; try discriminate Hscore.
    injection Hscore as <-. reflexivity.
  - rewrite <- (rnd_int 0) by lia. apply rnd_mono.
    change (inject_Z 0) with 0%Q.
    apply Qmult_le_0_compat; [apply Qabs_nonneg | easy].
  - f_equal. f_equal. destruct score as [n d]. unfold Qabs, Qopp. cbn.
    now rewrite Z.abs_opp.
Qed.

End TrainerConfidence.

(** * Properties of the command-line run *)

Section MainRun.
Import Engine.
Context {G : Type} `{Synth.Random G} `{Pickle} `{Float64}.

Lemma count_labels_binary (labels : list Z) :
  Forall (fun label => label = 0 \/ label = 1) labels ->
  Demo.count_labels labels 0 + Demo.count_labels labels 1 = Z.of_nat (length labels).
Proof.
  unfold Demo.count_labels. induction 1 as [|l labels Hl _ IH].
  - reflexivity.
  - cbn [map length]. rewrite !np_sum_cons.
    destruct Hl as [-> | ->]; cbn [Z.eqb Pos.eqb bool_to_Z]; lia.
Qed.

(** What a completed [main] went through. *)
Lemma main_ok_inv (g : G) (w w' : world) (s : Demo.printed) :
  Demo.main g w = (Ok s, w') ->
  exists (trained : world),
    train_models (fst (fst (Synth.generate_training_data 1000 g)))
      (snd (fst (Synth.generate_training_data 1000 g)))
      {| self := __init__; files := files w; clock := clock w; stdout := stdout w |}
    = (Ok tt, trained) /\
    fst (predict_anomaly normal_invoice trained) = Ok (Demo.normal_result s) /\
    fst (predict_anomaly suspicious_invoice trained) = Ok (Demo.suspicious_result s) /\
    save_models default_filepath trained = (Ok tt, w') /\
    Demo.total_samples s =
      Z.of_nat (length (fst (fst (Synth.generate_training_data 1000 g)))) /\
    Demo.normal_invoices s =
      Demo.count_labels (snd (fst (Synth.generate_training_data 1000 g))) 0 /\
    Demo.anomalous_invoices s =
      Demo.count_labels (snd (fst (Synth.generate_training_data 1000 g))) 1.
Proof.
  unfold Demo.main.
  destruct (Synth.generate_training_data 1000 g) as [[training_data labels] g'].
  cbn [fst snd]. intros Hrun.
  apply bind_ok_inv in Hrun as ([] & trained & Htrain & Hrun).
  apply bind_ok_inv in Hrun as (r1 & w1 & Hp1 & Hrun).
  apply bind_ok_inv in Hrun as (r2 & w2 & Hp2 & Hrun).
  apply bind_ok_inv in Hrun as ([] & w3 & Hsave & Hrun).
  injection Hrun as <- <-.
  pose proof (predict_anomaly_world normal_invoice trained) as E1.
  rewrite Hp1 in E1. cbn [snd] in E1. subst w1.
  pose proof (predict_anomaly_world suspicious_invoice trained) as E2.
  rewrite Hp2 in E2. cbn [snd] in E2. subst w2.
  exists trained. rewrite Hp1, Hp2. cbn. auto 10.
Qed.

(** X29. When [main] completes, the summary it printed adds up: 1000
    samples in total, and the normal and the anomalous invoices
    together are these 1000. *)
Theorem main_summary_adds_up (g : G) (w w' : world) (s : Demo.printed) :
  Demo.main g w = (Ok s, w') ->
  Demo.total_samples s = 1000 /\
  Demo.normal_invoices s + Demo.anomalous_invoices s = 1000.
Proof.
  intros Hrun. apply main_ok_inv in Hrun
    as (trained & _ & _ & _ & _ & Htotal & Hnormal & Hanomalous).
  destruct (generate_training_data_shape 1000 g) as [Hx Hy].
  rewrite Htotal, Hnormal, Hanomalous, Hx. split; [reflexivity |].
  rewrite count_labels_binary, Hy; [reflexivity |].
  apply generate_loop_labels. constructor.
Qed.

(** X30. When [main] completes, the artifact it saved under the default
    name stands for the trainer it trained: a freshly constructed
    trainer that loads it is trained and returns, for the two sample
    invoices, the very records [main] printed. *)
Theorem main_artifact_reproduces (g : G) (w w' : world) (s : Demo.printed)
    (now : string) (out : list line) :
  PickleLaws ->
  Demo.main g w = (Ok s, w') ->
  let fresh := {| self := __init__; files := files w'; clock := now; stdout := out |} in
  fst (load_models default_filepath fresh) = Ok true /\
  is_trained (self (snd (load_models default_filepath fresh))) = VBool true /\
  fst (predict_anomaly normal_invoice (snd (load_models default_filepath fresh))) =
    Ok (Demo.normal_result s) /\
  fst (predict_anomaly suspicious_invoice (snd (load_models default_filepath fresh))) =
    Ok (Demo.suspicious_result s).
Proof.
  intros Hlaws Hrun fresh. apply main_ok_inv in Hrun
    as (trained & Htrain & Hp1 & Hp2 & Hsave & _).
  apply train_models_ok_inv in Htrain
    as (X_train & X_test & y_train & y_test & s0 & sc & Xs & Xt & m & c & items
        & _ & _ & _ & _ & _ & _ & _ & Hself & _).
  apply save_models_ok in Hsave as [_ Hfile].
  destruct (load_models_pickled default_filepath fresh (self trained) (clock trained)
              Hlaws Hfile) as [Hok Hloaded].
  split; [exact Hok |]. rewrite Hloaded. split; [now rewrite Hself |].
  rewrite <- Hp1, <- Hp2.
  split; apply predict_anomaly_reads_self; exact Hloaded.
Qed.

End MainRun.

(** * The further properties on sample runs *)

Lemma generated_rows_integer_ranges_witness :
  Forall (fun row =>
            exists dow dom mon len dig : Z,
              nth 3 row 0%Q = inject_Z dow /\ 0 <= dow <= 6 /\
              nth 4 row 0%Q = inject_Z dom /\ 1 <= dom <= 28 /\
              nth 5 row 0%Q = inject_Z mon /\ 1 <= mon <= 12 /\
              nth 6 row 0%Q = inject_Z len /\ 8 <= len <= 15 /\
              nth 7 row 0%Q = inject_Z dig /\ 5 <= dig <= 10)
    (fst demo_batch).
Proof.
  exact (@generated_rows_integer_ranges (list Z) tape_random fixed_point
           tape_random_laws 10 demo_tape).
Defined.

Lemma round_amount_archetype_witness :
  (exists a : Z,
      In a [10000; 15000; 20000; 25000; 50000; 75000; 100000] /\
      Synth.amount_of (fst (Synth._generate_anomalous_invoice round_tape)) =
      inject_Z a) /\
  (nth 2 (fst (Synth._generate_anomalous_invoice round_tape)) 0 == 0)%Q.
Proof.
  apply (@round_amount_archetype (list Z) tape_random fixed_point
           tape_random_laws fixed_point_laws).
  reflexivity.
Defined.

Lemma overlapping_archetype_amounts_witness :
  (10000 <=
   Synth.amount_of (fst (Synth._generate_anomalous_invoice weekend_tape)) <=
   30000)%Q.
Proof.
  apply (proj1 (@overlapping_archetype_amounts (list Z) tape_random fixed_point
                  tape_random_laws fixed_point_laws weekend_tape)).
  reflexivity.
Defined.

Lemma generated_amounts_range_witness :
  Forall (fun row => (4500 <= Synth.amount_of row <= 500000)%Q) (fst demo_batch).
Proof.
  exact (@generated_amounts_range (list Z) tape_random fixed_point
           tape_random_laws fixed_point_laws 10 demo_tape).
Defined.

Lemma generated_remainder_range_witness :
  Forall (fun row => (0 <= nth 2 row 0 <= 1000)%Q) (fst demo_batch).
Proof.
  exact (@generated_remainder_range (list Z) tape_random fixed_point
           fixed_point_laws 10 demo_tape).
Defined.

Lemma evaluate_models_without_forest_witness :
  Engine._evaluate_models [[70000%Q]] [1] blank_world =
  (Engine.Raise (Engine.KeyError "isolation_forest"),
   {| Engine.self := Engine.self blank_world;
      Engine.files := Engine.files blank_world;
      Engine.clock := Engine.clock blank_world;
      Engine.stdout := Engine.stdout blank_world ++ [Engine.SayEvaluation] |}).
Proof.
  apply (evaluate_models_without_forest [[70000%Q]] [1] blank_world []); reflexivity.
Defined.

Lemma evaluate_models_metrics_witness :
  exists accuracy : Q,
    (0 <= accuracy <= 1)%Q /\
    Engine._evaluate_models [[70000%Q]; [15%Q]; [20%Q]] [1; 0; 1] demo_trained =
    (Engine.Ok tt,
     {| Engine.self := Engine.self demo_trained;
        Engine.files := Engine.files demo_trained;
        Engine.clock := Engine.clock demo_trained;
        Engine.stdout :=
          Engine.stdout demo_trained ++
          [ Engine.SayEvaluation;
            Engine.SayAccuracy (Engine.fin accuracy);
            Engine.SayAnomalies (Z.of_nat (count_occ Z.eq_dec [-1; 1; 1] (-1)))
              (Engine.np_sum [1; 0; 1]) ] |}).
Proof.
  apply (@evaluate_models_metrics stub_sklearn mem_pickle fixed_point fixed_point_laws
           [[70000%Q]; [15%Q]; [20%Q]] [1; 0; 1] demo_trained (Some 60%Q) [-1; 1; 1]);
    [reflexivity | reflexivity | reflexivity | discriminate].
Defined.

Lemma demo_training_returns :
  Engine.train_models (fst demo_batch) (snd demo_batch) blank_world =
  (Engine.Ok tt, demo_trained).
Proof. vm_compute. reflexivity. Qed.

Lemma train_models_data_flow_witness :
  exists X_train X_test y_train y_test s0 sc X_train_scaled m c,
    Engine.train_test_split (fst demo_batch) (snd demo_batch) =
      Engine.Ok (X_train, X_test, y_train, y_test) /\
    Engine.scaler (Engine.self blank_world) = Engine.VScaler s0 /\
    Engine.fit_transform s0 X_train = Engine.Ok (sc, X_train_scaled) /\
    Engine.iforest_fit Engine.IsolationForest X_train_scaled = Engine.Ok m /\
    Engine.dbscan_fit Engine.DBSCAN X_train_scaled = Engine.Ok c /\
    Engine.scaler (Engine.self demo_trained) = Engine.VScaler sc /\
    Engine.getitem (Engine.models (Engine.self demo_trained)) "isolation_forest" =
      Engine.Ok (Engine.VIForest m) /\
    Engine.getitem (Engine.models (Engine.self demo_trained)) "dbscan" =
      Engine.Ok (Engine.VDbscan c) /\
    Engine.is_trained (Engine.self demo_trained) = Engine.VBool true /\
    Engine.files demo_trained = Engine.files blank_world.
Proof.
  exact (train_models_data_flow (fst demo_batch) (snd demo_batch) blank_world
           demo_trained demo_training_returns).
Defined.

Lemma kmeans_training_returns :
  Engine.train_models (fst demo_batch) (snd demo_batch) kmeans_world =
  (Engine.Ok tt, snd (Engine.train_models (fst demo_batch) (snd demo_batch) kmeans_world)).
Proof. apply run_returns. vm_compute. reflexivity. Qed.

Lemma train_models_keeps_other_models_witness :
  Engine.getitem (Engine.models (Engine.self kmeans_world)) "kmeans" =
    Engine.Ok (Engine.VStr "KMeans(n_clusters=2)") /\
  Engine.getitem
    (Engine.models
       (Engine.self (snd (Engine.train_models (fst demo_batch) (snd demo_batch)
                            kmeans_world))))
    "kmeans" =
  Engine.getitem (Engine.models (Engine.self kmeans_world)) "kmeans".
Proof.
  split; [reflexivity |].
  apply (train_models_keeps_other_models (fst demo_batch) (snd demo_batch)
           kmeans_world _ "kmeans" kmeans_training_returns); discriminate.
Defined.

Lemma train_models_two_models_witness :
  exists m c,
    Engine.models (Engine.self demo_trained) =
    Engine.VDict [ ("isolation_forest", Engine.VIForest m);
                   ("dbscan", Engine.VDbscan c) ].
Proof.
  apply (train_models_two_models (fst demo_batch) (snd demo_batch)
           blank_world demo_trained demo_training_returns).
  left. reflexivity.
Defined.

Lemma train_models_split_raises_witness :
  Engine.train_models [] [] demo_trained =
  (Engine.Raise Engine.ValueError,
   {| Engine.self := Engine.self demo_trained;
      Engine.files := Engine.files demo_trained;
      Engine.clock := Engine.clock demo_trained;
      Engine.stdout := Engine.stdout demo_trained ++ [Engine.SayTraining] |}).
Proof.
  apply (train_models_split_raises [] [] demo_trained Engine.ValueError).
  reflexivity.
Defined.

Lemma train_models_forest_raises_witness :
  fst (@Engine.train_models brittle_sklearn brittle_pickle fixed_point
         (fst demo_batch) (snd demo_batch) brittle_world) =
    Engine.Raise Engine.ValueError /\
  Engine.self (snd (@Engine.train_models brittle_sklearn brittle_pickle fixed_point
                      (fst demo_batch) (snd demo_batch) brittle_world)) =
    @Engine.Build_trainer brittle_sklearn
      (@Engine.VDict brittle_sklearn
         [("isolation_forest", @Engine.VIForest brittle_sklearn None)])
      (@Engine.VScaler brittle_sklearn (Some 1000%Q))
      (@Engine.VBool brittle_sklearn true).
Proof.
  destruct (@train_models_forest_raises brittle_sklearn brittle_pickle fixed_point
              (fst demo_batch) (snd demo_batch) brittle_world
              (skipn 2 (fst demo_batch)) (firstn 2 (fst demo_batch))
              (skipn 2 (snd demo_batch)) (firstn 2 (snd demo_batch))
              (Some 1000%Q) (Some 1000%Q)
              (stub_scale 1000 (skipn 2 (fst demo_batch)))
              (stub_scale 1000 (firstn 2 (fst demo_batch)))
              [] Engine.ValueError) as [Hraise Hself];
    try (vm_compute; reflexivity).
  split; [exact Hraise | exact Hself].
Defined.

Lemma train_models_raise_keeps_flag_witness :
  Engine.is_trained (Engine.self (snd (Engine.train_models [] [] demo_trained))) =
  Engine.is_trained (Engine.self demo_trained).
Proof.
  apply (proj2 (train_models_raise_keeps_flag [] [] demo_trained) Engine.ValueError).
  reflexivity.
Defined.

Lemma demo_saving_returns :
  Engine.save_models Engine.default_filepath demo_trained =
  (Engine.Ok tt, snd (Engine.save_models Engine.default_filepath demo_trained)).
Proof. apply run_returns. vm_compute. reflexivity. Qed.

Lemma save_models_writes_one_path_witness :
  Engine.self (snd (Engine.save_models Engine.default_filepath demo_trained)) =
    Engine.self demo_trained /\
  Engine.stdout (snd (Engine.save_models Engine.default_filepath demo_trained)) =
    Engine.stdout demo_trained ++ [Engine.SaySaved Engine.default_filepath] /\
  forall other : string,
    other <> Engine.default_filepath ->
    Engine.files (snd (Engine.save_models Engine.default_filepath demo_trained)) !! other =
    Engine.files demo_trained !! other.
Proof.
  exact (save_models_writes_one_path Engine.default_filepath demo_trained _
           demo_saving_returns).
Defined.


Lemma save_then_load_restores_fields_witness :
  Engine.load_models Engine.default_filepath
    {| Engine.self := Engine.__init__;
       Engine.files :=
         Engine.files (snd (Engine.save_models Engine.default_filepath demo_trained));
       Engine.clock := "2024-01-02T00:00:00";
       Engine.stdout := [] |} =
  (Engine.Ok true,
   {| Engine.self := Engine.self demo_trained;
      Engine.files :=
        Engine.files (snd (Engine.save_models Engine.default_filepath demo_trained));
      Engine.clock := "2024-01-02T00:00:00";
      Engine.stdout := [] ++ [Engine.SayLoaded Engine.default_filepath] |}).
Proof.
  exact (save_then_load_restores_fields Engine.default_filepath demo_trained _
           Engine.__init__ "2024-01-02T00:00:00" [] mem_pickle_laws demo_saving_returns).
Defined.

Lemma load_models_partial_witness :
  Engine.load_models Engine.default_filepath partial_world =
  (Engine.Raise (Engine.KeyError "scaler"),
   {| Engine.self :=
        {| Engine.models := Engine.VDict [];
           Engine.scaler := Engine.scaler (Engine.self partial_world);
           Engine.is_trained := Engine.is_trained (Engine.self partial_world) |};
      Engine.files := Engine.files partial_world;
      Engine.clock := Engine.clock partial_world;
      Engine.stdout := Engine.stdout partial_world |}).
Proof.
  apply (load_models_partial Engine.default_filepath partial_world
           (Engine.Ok (Engine.VDict [("models", Engine.VDict [])]))
           [("models", Engine.VDict [])] (Engine.VDict []));
    reflexivity.
Defined.



Lemma predict_anomaly_without_forest_witness :
  Engine.predict_anomaly normal_invoice flagged_world =
  (Engine.Raise (Engine.KeyError "isolation_forest"), flagged_world).
Proof.
  apply (predict_anomaly_without_forest normal_invoice flagged_world (Some 1000%Q)
           (stub_scale 1000 [normal_invoice]) []);
    reflexivity.
Defined.

Lemma confidence_nonnegative_witness :
  Engine.dict_get
    [ ("is_anomaly", Engine.VBool false);
      ("anomaly_score", Engine.VFloat (45000 # 1000));
      ("confidence", Engine.VFloat (rnd (Qabs (45000 # 1000) * 100)));
      ("method", Engine.VStr "trained_isolation_forest") ] "confidence" =
    Some (Engine.VFloat (rnd (Qabs (45000 # 1000) * 100))) /\
  (0 <= rnd (Qabs (45000 # 1000) * 100))%Q /\
  rnd (Qabs (- (45000 # 1000)) * 100) = rnd (Qabs (45000 # 1000) * 100).
Proof.
  apply (@confidence_nonnegative stub_sklearn mem_pickle fixed_point fixed_point_laws
           normal_invoice demo_trained); reflexivity.
Defined.

Lemma predict_anomaly_two_records_witness :
  (Engine.truthy (Engine.is_trained (Engine.self blank_world)) = Engine.Ok false /\
   Engine.VDict [("error", Engine.VStr "Models not trained yet!")] =
   Engine.VDict [("error", Engine.VStr "Models not trained yet!")]) \/
  (Engine.truthy (Engine.is_trained (Engine.self blank_world)) = Engine.Ok true /\
   exists (decision : Z) (score : Q),
     Engine.VDict [("error", Engine.VStr "Models not trained yet!")] =
     Engine.VDict [ ("is_anomaly", Engine.VBool (decision =? -1));
                    ("anomaly_score", Engine.VFloat score);
                    ("confidence", Engine.VFloat (rnd (Qabs score * 100)));
                    ("method", Engine.VStr "trained_isolation_forest") ]).
Proof.
  apply (predict_anomaly_two_records normal_invoice blank_world). reflexivity.
Defined.

Lemma demo_main_returns :
  exists s w', Demo.main demo_tape blank_world = (Engine.Ok s, w').
Proof.
  destruct (Demo.main demo_tape blank_world) as [[s | e] w'] eqn:E.
  - now exists s, w'.
  - exfalso. apply (f_equal fst) in E. vm_compute in E. discriminate E.
Qed.

Lemma main_summary_adds_up_witness :
  exists s w',
    Demo.main demo_tape blank_world = (Engine.Ok s, w') /\
    Demo.total_samples s = 1000 /\
    Demo.normal_invoices s + Demo.anomalous_invoices s = 1000.
Proof.
  destruct demo_main_returns as (s & w' & E).
  exists s, w'. split; [exact E |].
  exact (main_summary_adds_up demo_tape blank_world w' s E).
Defined.

Lemma main_artifact_reproduces_witness :
  exists s w',
    Demo.main demo_tape blank_world = (Engine.Ok s, w') /\
    fst (Engine.predict_anomaly normal_invoice
           (snd (Engine.load_models Engine.default_filepath
                   {| Engine.self := Engine.__init__; Engine.files := Engine.files w';
                      Engine.clock := ""; Engine.stdout := [] |}))) =
    Engine.Ok (Demo.normal_result s).
Proof.
  destruct demo_main_returns as (s & w' & E).
  exists s, w'. split; [exact E |].
  apply (main_artifact_reproduces demo_tape blank_world w' s "" [] mem_pickle_laws E).
Defined.
